(** * DE1Simulator: a shallow embedding of the protocol engine (src/main.cpp)
    and of the Radio Agent (src/pi-daemon/de1-ble-daemon.cpp and the
    embedded copy DAEMON_CPP in src/main.cpp).

    Modelling conventions.
    - [double] values are modelled as rationals [Q]: every finite double is a
      rational, and all the arithmetic the claims depend on (multiplication
      and division by powers of two, comparisons) is exact in binary
      floating point.  [qSin] (the only transcendental function used) is a
      section variable: the results hold for every sine implementation.
    - A [uint8_t] / [char] byte is a [Z]; reads through a [const uint8_t*]
      mask with 255, as the cast does.
    - The enums [DE1::State] and [DE1::SubState] have [uint8_t] as
      underlying type: any byte is a value of them (a BLE write can carry
      any byte), so both are modelled as [Z] with named constants.
    - Qt widgets, labels and the log view formatting are not modelled; a log
      line is its category and an abstract message. *)

From Stdlib Require Import ZArith QArith Qround Qabs List String Lia Lqa.
Import ListNotations.

Open Scope Z_scope.

(* ------------------------------------------------------------------------ *)
(** ** Qt helpers: qMin, qMax, qBound and double-to-integer casts *)

Module Qt.

(** [qMin(a, b) = (a < b) ? a : b] *)
Definition qMinQ (a b : Q) : Q := if Qlt_le_dec a b then a else b.
(** [qMax(a, b) = (a < b) ? b : a] *)
Definition qMaxQ (a b : Q) : Q := if Qlt_le_dec a b then b else a.
(** [qBound(min, val, max) = qMax(min, qMin(max, val))] *)
Definition qBoundQ (mn v mx : Q) : Q := qMaxQ mn (qMinQ mx v).

Definition qMinZ (a b : Z) : Z := if a <? b then a else b.

(** [static_cast<integer>(double)]: truncation toward zero. *)
Definition trunc (x : Q) : Z :=
  if Qle_bool 0 x then Qfloor x else - Qfloor (- x).

(** Unsigned narrowing to [w] bits (wrap-around of the integer value). *)
Definition to_uw (w : Z) (z : Z) : Z := z mod 2 ^ w.

End Qt.

(* ------------------------------------------------------------------------ *)
(** ** namespace BinaryCodec *)

Module BinaryCodec.
Import Qt.

Local Open Scope Q_scope.

Definition encodeU8P4 (value : Q) : Z := trunc (qBoundQ 0 (value * 16) 255).
Definition decodeU8P4 (value : Z) : Q := inject_Z value / 16.
Definition encodeU16P12 (value : Q) : Z := trunc (qBoundQ 0 (value * 4096) 65535).
Definition encodeU16P8 (value : Q) : Z := trunc (qBoundQ 0 (value * 256) 65535).
Definition decodeU16P8 (value : Z) : Q := inject_Z value / 256.
Definition decodeU8P1 (value : Z) : Q := inject_Z value / 2.

Local Close Scope Q_scope.

(** [encodeU24P16] writes three bytes, big-endian. *)
Definition encodeU24P16 (value : Q) : list Z :=
  let encoded := trunc (qBoundQ 0 (value * 65536) 16777215) in
  [Z.land (Z.shiftr encoded 16) 255; Z.land (Z.shiftr encoded 8) 255;
   Z.land encoded 255].

Definition encodeShortBE (value : Z) : list Z :=
  [Z.land (Z.shiftr value 8) 255; Z.land value 255].

Definition decodeShortBE (b0 b1 : Z) : Z :=
  Qt.to_uw 16 (Z.lor (Z.shiftl b0 8) b1).

Definition encodeUint32BE (value : Z) : list Z :=
  [Z.land (Z.shiftr value 24) 255; Z.land (Z.shiftr value 16) 255;
   Z.land (Z.shiftr value 8) 255; Z.land value 255].

Definition decodeAddress (b0 b1 b2 : Z) : Z :=
  Z.lor (Z.lor (Z.shiftl b0 16) (Z.shiftl b1 8)) b2.

Definition decodeF8_1_7 (value : Z) : Q :=
  if negb (Z.land value 128 =? 0) then inject_Z (Z.land value 127)
  else (inject_Z value / 10)%Q.

Definition decodeU10P0 (b0 b1 : Z) : Z := Z.land (decodeShortBE b0 b1) 1023.

End BinaryCodec.

(* ------------------------------------------------------------------------ *)
(** ** namespace DE1: characteristic ids, states, substates, MMR addresses *)

Module DE1.

Definition CHAR_VERSION         : string := "A001".
Definition CHAR_REQUESTED_STATE : string := "A002".
Definition CHAR_READ_FROM_MMR   : string := "A005".
Definition CHAR_WRITE_TO_MMR    : string := "A006".
Definition CHAR_SHOT_SETTINGS   : string := "A00B".
Definition CHAR_SHOT_SAMPLE     : string := "A00D".
Definition CHAR_STATE_INFO      : string := "A00E".
Definition CHAR_HEADER_WRITE    : string := "A00F".
Definition CHAR_FRAME_WRITE     : string := "A010".
Definition CHAR_WATER_LEVELS    : string := "A011".

(** [enum class State : uint8_t] *)
Definition State := Z.
Definition Sleep : State := 0.
Definition GoingToSleep : State := 1.
Definition Idle : State := 2.
Definition Busy : State := 3.
Definition Espresso : State := 4.
Definition Steam : State := 5.
Definition HotWater : State := 6.
Definition HotWaterRinse : State := 15.

(** [enum class SubState : uint8_t] *)
Definition SubState := Z.
Definition Ready : SubState := 0.
Definition Heating : SubState := 1.
Definition FinalHeating : SubState := 2.
Definition Stabilising : SubState := 3.
Definition Preinfusion : SubState := 4.
Definition Pouring : SubState := 5.
Definition Ending : SubState := 6.
Definition Steaming : SubState := 7.

Module MMR.
Definition CPU_BOARD_MODEL  := 8388616.   (* 0x800008 *)
Definition MACHINE_MODEL    := 8388620.   (* 0x80000C *)
Definition FIRMWARE_VERSION := 8388624.   (* 0x800010 *)
Definition GHC_INFO         := 8402972.   (* 0x80381C *)
Definition GHC_MODE         := 8402976.   (* 0x803820 *)
Definition USB_CHARGER      := 8403028.   (* 0x803854 *)
End MMR.

End DE1.

(* ------------------------------------------------------------------------ *)
(** ** Profile structures *)

Record ProfileFrame := mkFrame {
  frameIndex : Z;
  flags : Z;
  setVal : Q;
  temp : Q;
  duration : Q;
  triggerVal : Q;
  maxVol : Z;
  hasExtension : bool;
  limiterValue : Q;
  limiterRange : Q }.

(** The default member initialisers of [struct ProfileFrame]. *)
Definition default_frame : ProfileFrame :=
  mkFrame 0 0 0 0 0 0 0 false 0 0.

Record ProfileHeader := mkHeader {
  headerV : Z;
  numFrames : Z;
  numPreinfuseFrames : Z;
  minPressure : Q;
  maxFlow : Q }.

Definition default_header : ProfileHeader := mkHeader 0 0 0 0 0.

(** [QVector] / [QByteArray] element assignment [v[i] = x]; every use in the
    source is guarded by an in-range test, out of range is left unchanged. *)
Fixpoint list_set {A} (l : list A) (i : nat) (x : A) : list A :=
  match l, i with
  | [], _ => []
  | _ :: r, O => x :: r
  | y :: r, S j => y :: list_set r j x
  end.

(** [static_cast<uint8_t>(d[i])] on a [QByteArray] payload. *)
Definition byte_at (l : list Z) (i : nat) : Z := Z.land (nth i l 0) 255.

(* ------------------------------------------------------------------------ *)
(** ** The Controller ([class DE1Simulator]) *)

Module Sim.
Import DE1.

Inductive Category := INFO | RX | TX | PI | WARN | ERROR.

(** The message of a log line, by the call site that produced it. *)
Inductive LogMsg :=
| MsgJsonParseError
| MsgPiReady
| MsgPiAdvertising
| MsgBleConnected (client : string)
| MsgBleDisconnected
| MsgCharRead (charId : string)
| MsgPiError (code : Z)
| MsgCharWrite (charId : string) (data : list Z)
| MsgRequestedState (requested : State)
| MsgGhcBlocked (requested : State)
| MsgMmrRead (address : Z)
| MsgMmrResponse (address : Z)
| MsgMmrWrite (address val : Z)
| MsgHeaderInvalid (size : nat)
| MsgHeaderWrite (h : ProfileHeader)
| MsgFrameInvalid (size : nat)
| MsgFrameExt (idx : Z)
| MsgFrameTail
| MsgFrameWrite (idx : Z)
| MsgFrameOutOfRange (idx : Z)
| MsgShotSettingsInvalid (size : nat)
| MsgShotSettings
| MsgStateInfo (st : State) (sub : SubState).

(** A command written to the TCP socket by [sendCommand]. *)
Inductive Command :=
| CmdNotify (charId : string) (data : list Z).

(** An event object received from the Agent, after
    [QJsonDocument::fromJson] and field extraction ([fromHex] applied to
    the [data] field of a write event). *)
Inductive PiEvent :=
| EvReady (version : string)
| EvAdvertising
| EvConnected (client : string)
| EvDisconnected
| EvWrite (charId : string) (data : list Z)
| EvRead (charId : string)
| EvError (code : Z)
| EvUnknown.

Record Values := mkValues {
  pressure : Q; flow : Q; temperature : Q; setTemp : Q; setPressure : Q;
  setFlow : Q; shotTimer_s : Q; waterLevel : Q; steamTemp : Q;
  frameNumber : Z }.

Definition initial_values : Values :=
  mkValues 0 0 93 93 9 2 0 75 0 0.

(** [m_shotTimer] (200 ms, periodic), [m_phaseTimer] (single shot; the
    interval it was last started with), [m_waterTimer] (5 s, periodic). *)
Record Timers := mkTimers {
  shotTimer_on : bool;
  phaseTimer : option Z;
  waterTimer_on : bool }.

Record Sim := mkSim {
  connected : bool;            (* m_socket->state() == ConnectedState *)
  tcpBuffer : list Z;
  currentState : State;
  currentSubState : SubState;
  profileHeader : ProfileHeader;
  profileFrames : list ProfileFrame;
  vals : Values;
  timers : Timers;
  ghc : Z;                     (* m_ghcCombo->currentData().toInt() *)
  sent : list Command;         (* everything written to the socket *)
  logv : list (Category * LogMsg) }.

Definition set_buffer b s :=
  mkSim (connected s) b (currentState s) (currentSubState s) (profileHeader s)
    (profileFrames s) (vals s) (timers s) (ghc s) (sent s) (logv s).
Definition set_pair st sub s :=
  mkSim (connected s) (tcpBuffer s) st sub (profileHeader s)
    (profileFrames s) (vals s) (timers s) (ghc s) (sent s) (logv s).
Definition set_profile h fs s :=
  mkSim (connected s) (tcpBuffer s) (currentState s) (currentSubState s) h
    fs (vals s) (timers s) (ghc s) (sent s) (logv s).
Definition set_frames fs s := set_profile (profileHeader s) fs s.
Definition set_vals v s :=
  mkSim (connected s) (tcpBuffer s) (currentState s) (currentSubState s)
    (profileHeader s) (profileFrames s) v (timers s) (ghc s) (sent s) (logv s).
Definition set_timers t s :=
  mkSim (connected s) (tcpBuffer s) (currentState s) (currentSubState s)
    (profileHeader s) (profileFrames s) (vals s) t (ghc s) (sent s) (logv s).
Definition set_sent c s :=
  mkSim (connected s) (tcpBuffer s) (currentState s) (currentSubState s)
    (profileHeader s) (profileFrames s) (vals s) (timers s) (ghc s) c (logv s).

Definition log (cat : Category) (m : LogMsg) (s : Sim) : Sim :=
  mkSim (connected s) (tcpBuffer s) (currentState s) (currentSubState s)
    (profileHeader s) (profileFrames s) (vals s) (timers s) (ghc s) (sent s)
    (logv s ++ [(cat, m)]).
Definition logRx := log RX.
Definition logTx := log TX.
Definition logPi := log PI.

(** The initial window: the GHC combo starts at index 3 (mode 3). *)
Definition initial (conn : bool) : Sim :=
  mkSim conn [] Idle Ready default_header [] initial_values
    (mkTimers false None false) 3 [] [].

(** Timer operations. *)
Definition start_shotTimer s :=
  set_timers (mkTimers true (phaseTimer (timers s)) (waterTimer_on (timers s))) s.
Definition stop_shotTimer s :=
  set_timers (mkTimers false (phaseTimer (timers s)) (waterTimer_on (timers s))) s.
Definition start_phaseTimer ms s :=
  set_timers (mkTimers (shotTimer_on (timers s)) (Some ms) (waterTimer_on (timers s))) s.
Definition stop_phaseTimer s :=
  set_timers (mkTimers (shotTimer_on (timers s)) None (waterTimer_on (timers s))) s.

(** === Send to Pi === *)

Definition sendCommand (c : Command) (s : Sim) : Sim :=
  if connected s then set_sent (sent s ++ [c]) s else s.

Definition sendNotification (charId : string) (data : list Z) (s : Sim) : Sim :=
  sendCommand (CmdNotify charId data) s.

Definition sendStateNotification (s : Sim) : Sim :=
  let data := [currentState s; currentSubState s] in
  let s := sendNotification CHAR_STATE_INFO data s in
  logTx (MsgStateInfo (currentState s) (currentSubState s)) s.

Definition sendWaterLevel (s : Sim) : Sim :=
  if negb (connected s) then s else
  let waterMm := (waterLevel (vals s) / 100 * 40 - 5)%Q in
  let encoded := BinaryCodec.encodeU16P8 waterMm in
  sendNotification CHAR_WATER_LEVELS (BinaryCodec.encodeShortBE encoded) s.

(** [transitionToState]: assignment, display update, STATE_INFO. *)
Definition transitionToState (st : State) (sub : SubState) (s : Sim) : Sim :=
  sendStateNotification (set_pair st sub s).

(** === Inbound characteristic writes === *)

Definition handleRequestedState (requested : State) (s : Sim) : Sim :=
  let ghcStatus := ghc s in
  if ghcStatus =? 3 then
    if negb (requested =? Sleep) && negb (requested =? Idle) then
      log WARN (MsgGhcBlocked requested) s
    else transitionToState requested Ready s
  else transitionToState requested Ready s.

Definition handleMMRReadRequest (value : list Z) (s : Sim) : Sim :=
  if (List.length value <? 4)%nat then s else
  let address := BinaryCodec.decodeAddress
                   (byte_at value 1) (byte_at value 2) (byte_at value 3) in
  let s := logRx (MsgMmrRead address) s in
  (* QByteArray response(8, 0); encodeUint32BE(address, response.data()) *)
  let response := BinaryCodec.encodeUint32BE address ++ [0; 0; 0; 0] in
  let response :=
    if address =? MMR.GHC_INFO then list_set response 4 (Z.land (ghc s) 255)
    else if address =? MMR.USB_CHARGER then list_set response 4 1
    else if address =? MMR.MACHINE_MODEL then list_set response 4 2
    else if address =? MMR.FIRMWARE_VERSION then
      list_set (list_set (list_set (list_set response 4 1) 5 0) 6 0) 7 0
    else response in
  let s := sendNotification CHAR_READ_FROM_MMR response s in
  logTx (MsgMmrResponse address) s.

Definition handleMMRWrite (value : list Z) (s : Sim) : Sim :=
  if (List.length value <? 8)%nat then s else
  let address := BinaryCodec.decodeAddress
                   (byte_at value 1) (byte_at value 2) (byte_at value 3) in
  let val := Qt.to_uw 32
               (Z.lor (Z.lor (Z.lor (byte_at value 4) (Z.shiftl (byte_at value 5) 8))
                             (Z.shiftl (byte_at value 6) 16))
                      (Z.shiftl (byte_at value 7) 24)) in
  logRx (MsgMmrWrite address val) s.

Definition handleHeaderWrite (value : list Z) (s : Sim) : Sim :=
  if (List.length value <? 5)%nat then logRx (MsgHeaderInvalid (List.length value)) s else
  let h := mkHeader (byte_at value 0) (byte_at value 1) (byte_at value 2)
             (BinaryCodec.decodeU8P4 (byte_at value 3))
             (BinaryCodec.decodeU8P4 (byte_at value 4)) in
  (* m_profileFrames.clear(); m_profileFrames.resize(numFrames) *)
  let s := set_profile h (repeat default_frame (Z.to_nat (numFrames h))) s in
  logRx (MsgHeaderWrite h) s.

Definition handleFrameWrite (value : list Z) (s : Sim) : Sim :=
  if (List.length value <? 8)%nat then logRx (MsgFrameInvalid (List.length value)) s else
  let frameIdx := byte_at value 0 in
  let fs := profileFrames s in
  if 32 <=? frameIdx then
    let actualIdx := frameIdx - 32 in
    if actualIdx <? Z.of_nat (List.length fs) then
      let f := nth (Z.to_nat actualIdx) fs default_frame in
      let f' := mkFrame (frameIndex f) (flags f) (setVal f) (temp f)
                  (duration f) (triggerVal f) (maxVol f) true
                  (BinaryCodec.decodeU8P4 (byte_at value 1))
                  (BinaryCodec.decodeU8P4 (byte_at value 2)) in
      let s := set_frames (list_set fs (Z.to_nat actualIdx) f') s in
      logRx (MsgFrameExt actualIdx) s
    else s
  else if frameIdx =? numFrames (profileHeader s) then logRx MsgFrameTail s
  else if frameIdx <? Z.of_nat (List.length fs) then
    let f := nth (Z.to_nat frameIdx) fs default_frame in
    let f' := mkFrame frameIdx (byte_at value 1)
                (BinaryCodec.decodeU8P4 (byte_at value 2))
                (BinaryCodec.decodeU8P1 (byte_at value 3))
                (BinaryCodec.decodeF8_1_7 (byte_at value 4))
                (BinaryCodec.decodeU8P4 (byte_at value 5))
                (BinaryCodec.decodeU10P0 (byte_at value 6) (byte_at value 7))
                (hasExtension f) (limiterValue f) (limiterRange f) in
    let s := set_frames (list_set fs (Z.to_nat frameIdx) f') s in
    logRx (MsgFrameWrite frameIdx) s
  else logRx (MsgFrameOutOfRange frameIdx) s.

Definition handleShotSettings (value : list Z) (s : Sim) : Sim :=
  if (List.length value <? 9)%nat then logRx (MsgShotSettingsInvalid (List.length value)) s
  else logRx MsgShotSettings s.

Definition handleCharacteristicWrite (charId : string) (value : list Z) (s : Sim)
  : Sim :=
  if String.eqb charId CHAR_REQUESTED_STATE then
    if (1 <=? List.length value)%nat then
      let requestedState := byte_at value 0 in
      let s := logRx (MsgRequestedState requestedState) s in
      handleRequestedState requestedState s
    else s
  else if String.eqb charId CHAR_READ_FROM_MMR then handleMMRReadRequest value s
  else if String.eqb charId CHAR_WRITE_TO_MMR then handleMMRWrite value s
  else if String.eqb charId CHAR_HEADER_WRITE then handleHeaderWrite value s
  else if String.eqb charId CHAR_FRAME_WRITE then handleFrameWrite value s
  else if String.eqb charId CHAR_SHOT_SETTINGS then handleShotSettings value s
  else logRx (MsgCharWrite charId value) s.

Definition handlePiEvent (ev : PiEvent) (s : Sim) : Sim :=
  match ev with
  | EvReady _ => sendWaterLevel (sendStateNotification (logPi MsgPiReady s))
  | EvAdvertising => logPi MsgPiAdvertising s
  | EvConnected client => logPi (MsgBleConnected client) s
  | EvDisconnected => logPi MsgBleDisconnected s
  | EvWrite charId data => handleCharacteristicWrite charId data s
  | EvRead charId => logRx (MsgCharRead charId) s
  | EvError code => log ERROR (MsgPiError code) s
  | EvUnknown => s
  end.

(** === Framed control channel: [onDataReceived] === *)

(** [m_tcpBuffer.indexOf('\n')], [left(idx)] and [mid(idx + 1)]. *)
Fixpoint split_line (buf : list Z) : option (list Z * list Z) :=
  match buf with
  | [] => None
  | b :: r =>
      if b =? 10 then Some ([], r)
      else match split_line r with
           | Some (line, rest) => Some (b :: line, rest)
           | None => None
           end
  end.

Section Channel.
(** [QJsonDocument::fromJson] followed by the field extraction of
    [handlePiEvent]; [None] is a parse error. *)
Variable fromJson : list Z -> option PiEvent.

(** The [while (true)] loop; each round consumes at least one byte, so the
    buffer length bounds the number of rounds. *)
Fixpoint processLines (fuel : nat) (s : Sim) : Sim :=
  match fuel with
  | O => s
  | S fuel' =>
      match split_line (tcpBuffer s) with
      | None => s
      | Some (line, rest) =>
          let s := set_buffer rest s in
          match line with
          | [] => processLines fuel' s
          | _ =>
              match fromJson line with
              | None => processLines fuel' (log ERROR MsgJsonParseError s)
              | Some ev => processLines fuel' (handlePiEvent ev s)
              end
          end
      end
  end.

Definition onDataReceived (incoming : list Z) (s : Sim) : Sim :=
  let s := set_buffer (tcpBuffer s ++ incoming) s in
  processLines (List.length (tcpBuffer s)) s.

End Channel.

(** === Operations and the phase scheduler === *)

Definition reset_run_values (v : Values) : Values :=
  (* m_shotTimer_s = 0; m_pressure = 0; m_flow = 0; m_frameNumber = 0 *)
  mkValues 0 0 (temperature v) (setTemp v) (setPressure v) (setFlow v) 0
    (waterLevel v) (steamTemp v) 0.

Definition startOperation (st : State) (s : Sim) : Sim :=
  if negb (currentState s =? Idle) && negb (currentState s =? Sleep) then s else
  let s := set_vals (reset_run_values (vals s)) s in
  let s :=
    if st =? Espresso then
      start_phaseTimer 2000 (transitionToState Espresso Heating s)
    else if st =? Steam then
      start_phaseTimer 45000 (transitionToState Steam Steaming s)
    else if st =? HotWater then
      start_phaseTimer 30000 (transitionToState HotWater Pouring s)
    else if st =? HotWaterRinse then
      start_phaseTimer 10000 (transitionToState HotWaterRinse Pouring s)
    else s in
  start_shotTimer s.

Definition clear_run_values (v : Values) : Values :=
  (* m_pressure = 0; m_flow = 0; m_steamTemp = 0; m_frameNumber = 0 *)
  mkValues 0 0 (temperature v) (setTemp v) (setPressure v) (setFlow v)
    (shotTimer_s v) (waterLevel v) 0 0.

Definition stopOperation (s : Sim) : Sim :=
  let s := stop_phaseTimer (stop_shotTimer s) in
  let s := set_vals (clear_run_values (vals s)) s in
  transitionToState Idle Ready s.

Definition onPhaseTimeout (s : Sim) : Sim :=
  if currentState s =? Espresso then
    if currentSubState s =? Heating then
      start_phaseTimer 5000 (transitionToState Espresso Preinfusion s)
    else if currentSubState s =? Preinfusion then
      start_phaseTimer 25000 (transitionToState Espresso Pouring s)
    else if currentSubState s =? Pouring then
      start_phaseTimer 2000 (transitionToState Espresso Ending s)
    else if currentSubState s =? Ending then stopOperation s
    else s
  else if currentState s =? Steam then stopOperation s
  else if currentState s =? HotWater then stopOperation s
  else if currentState s =? HotWaterRinse then stopOperation s
  else s.

(** Operator command surface. *)
Definition onPowerClicked (s : Sim) : Sim :=
  if currentState s =? Sleep then transitionToState Idle Ready s
  else transitionToState Sleep Ready (stopOperation s).

Definition toggleOperation (st : State) (s : Sim) : Sim :=
  if currentState s =? st then stopOperation s else startOperation st s.
Definition onEspressoClicked := toggleOperation Espresso.
Definition onSteamClicked := toggleOperation Steam.
Definition onHotWaterClicked := toggleOperation HotWater.
Definition onFlushClicked := toggleOperation HotWaterRinse.
Definition onStopClicked := stopOperation.

(** === Telemetry === *)

Definition sendShotSample (s : Sim) : Sim :=
  if negb (connected s) then s else
  let v := vals s in
  let timerEncoded := Qt.to_uw 16 (Qt.trunc (shotTimer_s v * 100)) in
  let data :=
    BinaryCodec.encodeShortBE timerEncoded
    ++ BinaryCodec.encodeShortBE (BinaryCodec.encodeU16P12 (pressure v))
    ++ BinaryCodec.encodeShortBE (BinaryCodec.encodeU16P12 (flow v))
    ++ BinaryCodec.encodeShortBE (BinaryCodec.encodeU16P8 (temperature v))
    ++ BinaryCodec.encodeU24P16 (temperature v)
    ++ BinaryCodec.encodeShortBE (BinaryCodec.encodeU16P8 (setTemp v))
    ++ BinaryCodec.encodeShortBE (BinaryCodec.encodeU16P8 (setTemp v))
    ++ [BinaryCodec.encodeU8P4 (setPressure v); BinaryCodec.encodeU8P4 (setFlow v);
        Qt.to_uw 8 (frameNumber v); Qt.to_uw 8 (Qt.trunc (steamTemp v))] in
  sendNotification CHAR_SHOT_SAMPLE data s.

Section Simulation.
(** [qSin] on doubles. *)
Variable qSin : Q -> Q.

Local Open Scope Q_scope.

Definition updateSimulationValues (s : Sim) : Sim :=
  let v := vals s in
  if (currentState s =? Espresso)%Z then
    if (currentSubState s =? Preinfusion)%Z then
      set_vals (mkValues (Qt.qMinQ 4 (shotTimer_s v * (8 # 10))) 2 (temperature v)
                  (setTemp v) 4 2 (shotTimer_s v) (waterLevel v) (steamTemp v)
                  (frameNumber v)) s
    else if (currentSubState s =? Pouring)%Z then
      let pouringTime := shotTimer_s v - 7 in
      set_vals (mkValues (8 + qSin (pouringTime * (1 # 2)) * 1)
                  (2 + qSin (pouringTime * (3 # 10)) * (1 # 2)) (temperature v)
                  (setTemp v) 9 2 (shotTimer_s v) (waterLevel v) (steamTemp v)
                  (Qt.qMinZ 5 (Qt.trunc (pouringTime / 5) + 1))) s
    else if (currentSubState s =? Ending)%Z then
      set_vals (mkValues (Qt.qMaxQ 0 (pressure v - (1 # 2)))
                  (Qt.qMaxQ 0 (flow v - (3 # 10))) (temperature v) (setTemp v)
                  (setPressure v) (setFlow v) (shotTimer_s v) (waterLevel v)
                  (steamTemp v) (frameNumber v)) s
    else s
  else if (currentState s =? Steam)%Z then
    set_vals (mkValues (3 # 2) 0 (temperature v) (setTemp v) (setPressure v)
                (setFlow v) (shotTimer_s v) (waterLevel v)
                (Qt.qMinQ 150 (100 + shotTimer_s v * 2)) (frameNumber v)) s
  else if (currentState s =? HotWater)%Z then
    set_vals (mkValues (1 # 2) 6 (temperature v) (setTemp v) (setPressure v)
                (setFlow v) (shotTimer_s v) (waterLevel v) (steamTemp v)
                (frameNumber v)) s
  else if (currentState s =? HotWaterRinse)%Z then
    set_vals (mkValues 1 8 (temperature v) (setTemp v) (setPressure v)
                (setFlow v) (shotTimer_s v) (waterLevel v) (steamTemp v)
                (frameNumber v)) s
  else s.

Local Close Scope Q_scope.

Definition onShotTimerTick (s : Sim) : Sim :=
  let v := vals s in
  let s := set_vals (mkValues (pressure v) (flow v) (temperature v) (setTemp v)
                       (setPressure v) (setFlow v) (shotTimer_s v + (2 # 10))
                       (waterLevel v) (steamTemp v) (frameNumber v)) s in
  sendShotSample (updateSimulationValues s).

(** A timer expiry; [None] when that timer is not running.  The phase
    timer is single-shot: it is inactive when its slot runs. *)
Inductive TimerEvent := ShotTick | PhaseTimeout | WaterTick.

Definition fire (e : TimerEvent) (s : Sim) : option Sim :=
  match e with
  | ShotTick =>
      if shotTimer_on (timers s) then Some (onShotTimerTick s) else None
  | PhaseTimeout =>
      match phaseTimer (timers s) with
      | Some _ => Some (onPhaseTimeout (stop_phaseTimer s))
      | None => None
      end
  | WaterTick =>
      if waterTimer_on (timers s) then Some (sendWaterLevel s) else None
  end.

Fixpoint run_timers (evs : list TimerEvent) (s : Sim) : option Sim :=
  match evs with
  | [] => Some s
  | e :: r => match fire e s with Some s' => run_timers r s' | None => None end
  end.

End Simulation.

(** The Controller's event loop: a TCP read on the control channel, a timer
    expiry (a timer that is not running delivers nothing) or a click on one
    of the operation buttons. *)
Inductive Input :=
| InData (bytes : list Z)
| InTimer (e : TimerEvent)
| InPower
| InEspresso
| InSteam
| InHotWater
| InFlush
| InStop.

Definition step (fromJson : list Z -> option PiEvent) (qSin : Q -> Q) (i : Input)
  (s : Sim) : Sim :=
  match i with
  | InData bytes => onDataReceived fromJson bytes s
  | InTimer e => match fire qSin e s with Some s' => s' | None => s end
  | InPower => onPowerClicked s
  | InEspresso => onEspressoClicked s
  | InSteam => onSteamClicked s
  | InHotWater => onHotWaterClicked s
  | InFlush => onFlushClicked s
  | InStop => onStopClicked s
  end.

Fixpoint run fromJson qSin (is : list Input) (s : Sim) : Sim :=
  match is with
  | [] => s
  | i :: r => run fromJson qSin r (step fromJson qSin i s)
  end.

End Sim.

(* ------------------------------------------------------------------------ *)
(** ** The Radio Agent ([class DE1BleDaemon])

    Two copies exist: the standalone daemon in src/pi-daemon and the copy
    embedded in src/main.cpp as [DAEMON_CPP], which the setup wizard writes
    out and deploys.  Both are modelled over the same state. *)

Module AgentModel.

(** The events the Agent sends to the Controller ([sendToWindows]). *)
Inductive Outbound := OReady | OAdvertising | OConnected | ODisconnected.

Record Agent := mkAgent {
  tcpClient : bool;          (* m_tcpClient != nullptr *)
  serviceCreated : bool;     (* m_de1Service != nullptr *)
  advertising : bool;        (* the controller is advertising *)
  bleCentral : bool;         (* a BLE central is connected *)
  toWindows : list Outbound }.

(** Signals delivered to the Agent. *)
Inductive Input :=
| TcpNewConnection           (* QTcpServer::newConnection *)
| TcpDisconnected            (* QTcpSocket::disconnected of the client *)
| BleConnected               (* QLowEnergyController::connected *)
| BleDisconnected            (* QLowEnergyController::disconnected *)
| BootTimer                  (* QTimer::singleShot(100, startAdvertising) *)
| CmdStart                   (* {"cmd":"start"} *)
| CmdStop.                   (* {"cmd":"stop"} *)

Definition set_tcp b a :=
  mkAgent b (serviceCreated a) (advertising a) (bleCentral a) (toWindows a).
Definition set_adv b a :=
  mkAgent (tcpClient a) (serviceCreated a) b (bleCentral a) (toWindows a).
Definition set_central b a :=
  mkAgent (tcpClient a) (serviceCreated a) (advertising a) b (toWindows a).

Definition sendToWindows (o : Outbound) (a : Agent) : Agent :=
  if tcpClient a then
    mkAgent (tcpClient a) (serviceCreated a) (advertising a) (bleCentral a)
      (toWindows a ++ [o])
  else a.

(** A peripheral stops advertising when a central connects. *)
Definition on_central_connect (a : Agent) : Agent :=
  set_adv false (set_central true a).

Definition boot (serviceOk : bool) : Agent := mkAgent false serviceOk false false [].

(** The event loop of an Agent whose signal handler is [step]. *)
Fixpoint run (step : Input -> Agent -> Agent) (is : list Input) (a : Agent) : Agent :=
  match is with
  | [] => a
  | i :: r => run step r (step i a)
  end.

End AgentModel.

(** src/pi-daemon/de1-ble-daemon.cpp *)
Module Daemon.
Import AgentModel.

Definition startAdvertising (a : Agent) : Agent :=
  if negb (serviceCreated a) then a
  else sendToWindows OAdvertising (set_adv true a).

Definition stopAdvertising (a : Agent) : Agent := set_adv false a.

Definition step (i : Input) (a : Agent) : Agent :=
  match i with
  | TcpNewConnection =>
      if tcpClient a then a   (* rejected: socket closed *)
      else sendToWindows OReady (set_tcp true a)
  | TcpDisconnected =>
      if tcpClient a then set_tcp false a
        (* Keep advertising - don't stop when Windows disconnects *)
      else a
  | BleConnected => sendToWindows OConnected (on_central_connect a)
  | BleDisconnected =>
      startAdvertising (sendToWindows ODisconnected (set_central false a))
  | BootTimer => startAdvertising a
  | CmdStart => startAdvertising a
  | CmdStop => stopAdvertising a
  end.

End Daemon.

(** [DAEMON_CPP] in src/main.cpp *)
Module EmbeddedDaemon.
Import AgentModel.

Definition startAdvertising (a : Agent) : Agent :=
  sendToWindows OAdvertising (set_adv true a).

Definition step (i : Input) (a : Agent) : Agent :=
  match i with
  | TcpNewConnection =>
      if tcpClient a then a
      else startAdvertising (sendToWindows OReady (set_tcp true a))
  | TcpDisconnected =>
      (* m_tcpClient = nullptr; m_bleController->stopAdvertising(); *)
      if tcpClient a then set_adv false (set_tcp false a) else a
  | BleConnected => sendToWindows OConnected (on_central_connect a)
  | BleDisconnected =>
      startAdvertising (sendToWindows ODisconnected (set_central false a))
  | BootTimer => a      (* no start-up advertising timer *)
  | CmdStart => a       (* onTcpData only handles notify and update *)
  | CmdStop => a
  end.

End EmbeddedDaemon.

(* ======================================================================== *)
(** * Properties *)

Import DE1 Sim.

(* ------------------------------------------------------------------------ *)
(** ** Codec lemmas *)

Lemma encodeU8P4_in_range (v : Q) :
  (0 <= v)%Q -> (v <= 255 # 16)%Q ->
  exists y, (y == v * 16)%Q /\ BinaryCodec.encodeU8P4 v = Qfloor y.
Proof.
  intros H0 H1. unfold BinaryCodec.encodeU8P4, Qt.qBoundQ, Qt.qMaxQ, Qt.qMinQ.
  destruct (Qlt_le_dec 255 (v * 16)) as [Hlt | Hle].
  - exfalso. assert (v * 16 <= 255)%Q by lra. lra.
  - destruct (Qlt_le_dec 0 (v * 16)) as [Hp | Hnp].
    + exists (v * 16)%Q. split; [reflexivity |].
      unfold Qt.trunc. replace (Qle_bool 0 (v * 16)) with true; [reflexivity |].
      symmetry. apply Qle_bool_iff. lra.
    + exists 0%Q. split; [lra | reflexivity].
Qed.

Lemma encodeU8P4_negative (v : Q) : (v < 0)%Q -> BinaryCodec.encodeU8P4 v = 0.
Proof.
  intros H. unfold BinaryCodec.encodeU8P4, Qt.qBoundQ, Qt.qMaxQ, Qt.qMinQ.
  destruct (Qlt_le_dec 255 (v * 16)) as [Hlt | Hle]; [lra |].
  destruct (Qlt_le_dec 0 (v * 16)) as [Hp | Hnp]; [lra | reflexivity].
Qed.

Lemma encodeU8P4_large (v : Q) : (255 # 16 < v)%Q -> BinaryCodec.encodeU8P4 v = 255.
Proof.
  intros H. unfold BinaryCodec.encodeU8P4, Qt.qBoundQ, Qt.qMaxQ, Qt.qMinQ.
  destruct (Qlt_le_dec 255 (v * 16)) as [Hlt | Hle]; [| lra].
  destruct (Qlt_le_dec 0 255) as [Hp | Hnp]; [reflexivity | lra].
Qed.

(** C7: for [v] in [0, 15.9375] the U8P4 round trip is within 1/16 of [v];
    below 0 the encoder returns the encoding of 0 and above 15.9375 it
    returns 255: it clamps and never wraps. *)
Theorem encodeU8P4_roundtrip_clamp :
  (forall v : Q, (0 <= v <= 255 # 16)%Q ->
     (Qabs (BinaryCodec.decodeU8P4 (BinaryCodec.encodeU8P4 v) - v) <= 1 # 16)%Q) /\
  (forall v : Q, (v < 0)%Q ->
     BinaryCodec.encodeU8P4 v = BinaryCodec.encodeU8P4 0) /\
  (forall v : Q, (255 # 16 < v)%Q -> BinaryCodec.encodeU8P4 v = 255).
Proof.
  split; [| split].
  - intros v [H0 H1].
    destruct (encodeU8P4_in_range v H0 H1) as [y [Hy ->]].
    unfold BinaryCodec.decodeU8P4.
    pose proof (Qfloor_le y) as Hf. pose proof (Qlt_floor y) as Hc.
    rewrite inject_Z_plus in Hc. change (inject_Z 1) with 1%Q in Hc.
    apply Qabs_Qle_condition. split.
    + apply (Qmult_le_r _ _ 16); [reflexivity |].
      setoid_replace ((inject_Z (Qfloor y) / 16 - v) * 16)%Q
        with (inject_Z (Qfloor y) - v * 16)%Q by field. lra.
    + apply (Qmult_le_r _ _ 16); [reflexivity |].
      setoid_replace ((inject_Z (Qfloor y) / 16 - v) * 16)%Q
        with (inject_Z (Qfloor y) - v * 16)%Q by field. lra.
  - intros v H. rewrite (encodeU8P4_negative v H). reflexivity.
  - exact encodeU8P4_large.
Qed.

Lemma encodeU8P4_roundtrip_clamp_witness :
  (Qabs (BinaryCodec.decodeU8P4 (BinaryCodec.encodeU8P4 (3 # 10)) - (3 # 10)) <= 1 # 16)%Q /\
  BinaryCodec.encodeU8P4 (-1) = BinaryCodec.encodeU8P4 0 /\
  BinaryCodec.encodeU8P4 20 = 255.
Proof.
  destruct encodeU8P4_roundtrip_clamp as [A [B C]].
  split; [apply A; split; vm_compute; discriminate |].
  split; [apply B; reflexivity | apply C; reflexivity].
Defined.

(* ------------------------------------------------------------------------ *)
(** ** Frame lemmas: what each handler leaves alone *)

(** The part of the Controller state that only state transitions, timers
    and the operator change. *)
Definition control (s : Sim) :=
  (connected s, currentState s, currentSubState s, vals s, timers s, ghc s).

Ltac split_ifs :=
  repeat match goal with
         | |- context [if ?c then _ else _] => destruct c
         end.

Lemma control_log c m s : control (log c m s) = control s.
Proof. reflexivity. Qed.

Lemma control_sendCommand c s : control (sendCommand c s) = control s.
Proof. unfold sendCommand. destruct (connected s); reflexivity. Qed.

Lemma profile_sendCommand c s :
  profileHeader (sendCommand c s) = profileHeader s /\
  profileFrames (sendCommand c s) = profileFrames s.
Proof. unfold sendCommand. destruct (connected s); split; reflexivity. Qed.

Lemma control_handleMMRReadRequest v s :
  control (handleMMRReadRequest v s) = control s.
Proof.
  unfold handleMMRReadRequest, logTx, logRx, sendNotification.
  destruct (List.length v <? 4)%nat; [reflexivity |]. cbv zeta.
  rewrite control_log, control_sendCommand. reflexivity.
Qed.

Lemma control_handleMMRWrite v s : control (handleMMRWrite v s) = control s.
Proof. unfold handleMMRWrite, logRx. destruct (List.length v <? 8)%nat; reflexivity. Qed.

Lemma control_handleHeaderWrite v s : control (handleHeaderWrite v s) = control s.
Proof. unfold handleHeaderWrite, logRx. destruct (List.length v <? 5)%nat; reflexivity. Qed.

Lemma control_handleFrameWrite v s : control (handleFrameWrite v s) = control s.
Proof. unfold handleFrameWrite, logRx. cbv zeta. split_ifs; reflexivity. Qed.

Lemma control_handleShotSettings v s : control (handleShotSettings v s) = control s.
Proof. unfold handleShotSettings, logRx. destruct (List.length v <? 9)%nat; reflexivity. Qed.

Lemma control_transitionToState st sub s :
  currentState (transitionToState st sub s) = st /\
  currentSubState (transitionToState st sub s) = sub /\
  connected (transitionToState st sub s) = connected s /\
  vals (transitionToState st sub s) = vals s /\
  timers (transitionToState st sub s) = timers s /\
  ghc (transitionToState st sub s) = ghc s.
Proof.
  unfold transitionToState, sendStateNotification, sendNotification, logTx,
    sendCommand.
  cbv zeta. destruct (connected (set_pair st sub s)); repeat split.
Qed.

Lemma sent_transitionToState st sub s :
  connected s = true ->
  sent (transitionToState st sub s) = sent s ++ [CmdNotify CHAR_STATE_INFO [st; sub]].
Proof.
  intros Hc. unfold transitionToState, sendStateNotification, sendNotification,
    sendCommand, logTx, set_pair. simpl connected. rewrite Hc. reflexivity.
Qed.

(** Every write except REQUESTED_STATE leaves the control state alone. *)
Lemma control_handleCharacteristicWrite_other c v s :
  c <> CHAR_REQUESTED_STATE -> control (handleCharacteristicWrite c v s) = control s.
Proof.
  intros Hc. unfold handleCharacteristicWrite.
  apply String.eqb_neq in Hc. rewrite Hc.
  destruct (String.eqb c CHAR_READ_FROM_MMR); [apply control_handleMMRReadRequest |].
  destruct (String.eqb c CHAR_WRITE_TO_MMR); [apply control_handleMMRWrite |].
  destruct (String.eqb c CHAR_HEADER_WRITE); [apply control_handleHeaderWrite |].
  destruct (String.eqb c CHAR_FRAME_WRITE); [apply control_handleFrameWrite |].
  destruct (String.eqb c CHAR_SHOT_SETTINGS); [apply control_handleShotSettings |].
  reflexivity.
Qed.

(** A REQUESTED_STATE write is the gate followed by a transition. *)
Lemma handleCharacteristicWrite_requested v s :
  (1 <= List.length v)%nat ->
  handleCharacteristicWrite CHAR_REQUESTED_STATE v s =
  handleRequestedState (byte_at v 0)
    (logRx (MsgRequestedState (byte_at v 0)) s).
Proof.
  intros Hl. unfold handleCharacteristicWrite. cbn [String.eqb].
  replace (1 <=? List.length v)%nat with true; [reflexivity |].
  symmetry. apply Nat.leb_le. exact Hl.
Qed.

(* ------------------------------------------------------------------------ *)
(** ** REQUESTED_STATE writes and the GHC gate *)

(** A connected Controller in (Idle, Ready) with GHC mode 0. *)
Definition idle_ghc0 : Sim :=
  mkSim true [] Idle Ready default_header [] initial_values
    (mkTimers false None false) 0 [] [].

Lemma handleRequestedState_pass r s :
  (ghc s <> 3 \/ r = Sleep \/ r = Idle) ->
  handleRequestedState r s = transitionToState r Ready s.
Proof.
  intros H. unfold handleRequestedState.
  destruct (Z.eqb_spec (ghc s) 3) as [E | E]; [| reflexivity].
  destruct H as [H | [H | H]]; [contradiction | |]; subst r; reflexivity.
Qed.

Lemma handleRequestedState_block r s :
  ghc s = 3 -> r <> Sleep -> r <> Idle ->
  handleRequestedState r s = log WARN (MsgGhcBlocked r) s.
Proof.
  intros Hg Hs Hi. unfold handleRequestedState. rewrite Hg. cbn [Z.eqb Pos.eqb].
  apply Z.eqb_neq in Hs, Hi. rewrite Hs, Hi. reflexivity.
Qed.

(** C1 (as the code does it): REQUESTED_STATE 04 while Idle with GHC mode 0
    makes Espresso current with substate Ready and emits exactly one
    STATE_INFO notification [04 00]; no timer is started. *)
Theorem requested_espresso_from_idle (s : Sim) :
  currentState s = Idle -> ghc s = 0 -> connected s = true ->
  let s' := handleCharacteristicWrite CHAR_REQUESTED_STATE [4] s in
  currentState s' = Espresso /\ currentSubState s' = Ready /\
  sent s' = sent s ++ [CmdNotify CHAR_STATE_INFO [4; 0]] /\
  timers s' = timers s.
Proof.
  intros Hidle Hg Hc s'. subst s'.
  rewrite handleCharacteristicWrite_requested by (simpl; lia).
  rewrite handleRequestedState_pass by (left; simpl; lia).
  pose proof (control_transitionToState (byte_at [4] 0) Ready
                (logRx (MsgRequestedState (byte_at [4] 0)) s))
    as (H1 & H2 & H3 & H4 & H5 & H6).
  rewrite H1, H2, H5. rewrite sent_transitionToState by exact Hc.
  repeat split; reflexivity.
Qed.

Lemma requested_espresso_from_idle_witness :
  currentState idle_ghc0 = Idle /\ ghc idle_ghc0 = 0 /\
  connected idle_ghc0 = true /\
  currentSubState (handleCharacteristicWrite CHAR_REQUESTED_STATE [4] idle_ghc0)
    = Ready.
Proof.
  split; [reflexivity |]. split; [reflexivity |]. split; [reflexivity |].
  apply (requested_espresso_from_idle idle_ghc0); reflexivity.
Defined.

(** C1 fails as stated: from (Idle, Ready) with GHC mode 0, REQUESTED_STATE
    04 emits STATE_INFO [04 00] (Espresso/Ready), never [04 01]. *)
Lemma requested_espresso_heating_counterexample :
  sent (handleCharacteristicWrite CHAR_REQUESTED_STATE [4] idle_ghc0)
    = [CmdNotify CHAR_STATE_INFO [4; 0]] /\
  ~ In (CmdNotify CHAR_STATE_INFO [4; 1])
       (sent (handleCharacteristicWrite CHAR_REQUESTED_STATE [4] idle_ghc0)).
Proof.
  split; [reflexivity |].
  vm_compute. intros [H | H]; [discriminate H | exact H].
Qed.

(** C10: a REQUESTED_STATE write that passes the GHC gate makes
    (requested, Ready) current and starts neither the phase timer nor the
    shot-sample timer (the timers and simulated values are untouched). *)
Theorem requested_state_sets_ready (value : list Z) (s : Sim) :
  (1 <= List.length value)%nat ->
  (ghc s <> 3 \/ byte_at value 0 = Sleep \/ byte_at value 0 = Idle) ->
  let s' := handleCharacteristicWrite CHAR_REQUESTED_STATE value s in
  currentState s' = byte_at value 0 /\ currentSubState s' = Ready /\
  timers s' = timers s /\ vals s' = vals s.
Proof.
  intros Hl Hgate s'. subst s'.
  rewrite handleCharacteristicWrite_requested by exact Hl.
  rewrite handleRequestedState_pass by exact Hgate.
  pose proof (control_transitionToState (byte_at value 0) Ready
                (logRx (MsgRequestedState (byte_at value 0)) s))
    as (H1 & H2 & H3 & H4 & H5 & H6).
  rewrite H1, H2, H4, H5. repeat split.
Qed.

Lemma requested_state_sets_ready_witness :
  currentSubState (handleCharacteristicWrite CHAR_REQUESTED_STATE [5] idle_ghc0)
    = Ready.
Proof.
  apply (requested_state_sets_ready [5] idle_ghc0).
  - simpl. lia.
  - left. discriminate.
Defined.

(** A sequence of BLE characteristic writes. *)
Definition ble_writes (ws : list (string * list Z)) (s : Sim) : Sim :=
  fold_left (fun s '(c, v) => handleCharacteristicWrite c v s) ws s.

Lemma handleCharacteristicWrite_ghc3 c v s :
  ghc s = 3 ->
  ghc (handleCharacteristicWrite c v s) = 3 /\
  (currentState (handleCharacteristicWrite c v s) = currentState s \/
   currentState (handleCharacteristicWrite c v s) = Sleep \/
   currentState (handleCharacteristicWrite c v s) = Idle).
Proof.
  intros Hg.
  destruct (string_dec c CHAR_REQUESTED_STATE) as [-> | Hne].
  - destruct (Nat.leb_spec 1 (List.length v)) as [Hl | Hl].
    + rewrite handleCharacteristicWrite_requested by exact Hl.
      set (r := byte_at v 0).
      destruct (Z.eq_dec r Sleep) as [E | E].
      * rewrite handleRequestedState_pass by (right; left; exact E).
        pose proof (control_transitionToState r Ready
                      (logRx (MsgRequestedState r) s)) as (H1 & _ & _ & _ & _ & H6).
        rewrite H1, H6. split; [exact Hg | right; left; exact E].
      * destruct (Z.eq_dec r Idle) as [E' | E'].
        -- rewrite handleRequestedState_pass by (right; right; exact E').
           pose proof (control_transitionToState r Ready
                         (logRx (MsgRequestedState r) s)) as (H1 & _ & _ & _ & _ & H6).
           rewrite H1, H6. split; [exact Hg | right; right; exact E'].
        -- rewrite handleRequestedState_block by assumption.
           split; [exact Hg | left; reflexivity].
    + unfold handleCharacteristicWrite. cbn [String.eqb].
      replace (1 <=? List.length v)%nat with false
        by (symmetry; apply Nat.leb_gt; lia).
      split; [exact Hg | left; reflexivity].
  - pose proof (control_handleCharacteristicWrite_other c v s Hne) as H.
    unfold control in H. inversion H as [[Hc Hs Hsub Hv Ht Hgh]].
    rewrite Hs, Hgh. split; [exact Hg | left; reflexivity].
Qed.

(** C4: with GHC mode 3 a REQUESTED_STATE other than Sleep or Idle is
    logged at WARN and dropped, leaving (state, substate) and the outbound
    traffic unchanged; in any other mode every request is passed to the
    transition; and over any sequence of BLE writes received in mode 3 the
    current state is only ever the state it started in, Sleep or Idle. *)
Theorem ghc_gate_blocks_requests :
  (forall s r, ghc s = 3 -> r <> Sleep -> r <> Idle ->
     let s' := handleRequestedState r s in
     currentState s' = currentState s /\ currentSubState s' = currentSubState s /\
     sent s' = sent s /\ logv s' = logv s ++ [(WARN, MsgGhcBlocked r)]) /\
  (forall s r, ghc s <> 3 ->
     handleRequestedState r s = transitionToState r Ready s) /\
  (forall ws s, ghc s = 3 ->
     let s' := ble_writes ws s in
     currentState s' = currentState s \/ currentState s' = Sleep \/
     currentState s' = Idle).
Proof.
  split; [| split].
  - intros s r Hg Hs Hi s'. subst s'.
    rewrite handleRequestedState_block by assumption.
    repeat split; reflexivity.
  - intros s r Hg. apply handleRequestedState_pass. left; exact Hg.
  - intros ws. unfold ble_writes.
    induction ws as [| [c v] ws IH]; intros s Hg; [left; reflexivity |].
    simpl. destruct (handleCharacteristicWrite_ghc3 c v s Hg) as [Hg' Hst].
    destruct (IH _ Hg') as [E | [E | E]].
    + rewrite E. exact Hst.
    + right; left; exact E.
    + right; right; exact E.
Qed.

Lemma ghc_gate_blocks_requests_witness :
  currentState (handleRequestedState Espresso (initial true)) = Idle /\
  currentState (ble_writes [(CHAR_REQUESTED_STATE, [4])] (initial true)) = Idle.
Proof.
  destruct ghc_gate_blocks_requests as [A [_ C]]. split.
  - apply (A (initial true) Espresso); [reflexivity | discriminate | discriminate].
  - destruct (C [(CHAR_REQUESTED_STATE, [4])] (initial true) eq_refl)
      as [E | [E | E]]; [exact E | discriminate E | exact E].
Defined.

(* ------------------------------------------------------------------------ *)
(** ** MMR responder *)

(** Big-endian and little-endian 32-bit encodings, written arithmetically. *)
Definition be32 (v : Z) : list Z :=
  [(v / 2 ^ 24) mod 256; (v / 2 ^ 16) mod 256; (v / 2 ^ 8) mod 256; v mod 256].
Definition le32 (v : Z) : list Z :=
  [v mod 256; (v / 2 ^ 8) mod 256; (v / 2 ^ 16) mod 256; (v / 2 ^ 24) mod 256].

(** The canned MMR values, with the current GHC mode served at
    GHC_INFO = 0x80381C. *)
Definition mmr_canned (ghcMode address : Z) : Z :=
  if address =? 8402972 then ghcMode          (* 0x80381C *)
  else if address =? 8403028 then 1           (* 0x803854 *)
  else if address =? 8388620 then 2           (* 0x80000C *)
  else if address =? 8388624 then 1           (* 0x800010 *)
  else 0.

Lemma byte_of_shift (v k : Z) :
  0 <= k -> Z.land (Z.shiftr v k) 255 = (v / 2 ^ k) mod 256.
Proof.
  intros Hk. change 255 with (Z.ones 8). rewrite Z.land_ones by lia.
  rewrite Z.shiftr_div_pow2 by exact Hk. reflexivity.
Qed.

Lemma encodeUint32BE_be32 (v : Z) : BinaryCodec.encodeUint32BE v = be32 v.
Proof.
  unfold BinaryCodec.encodeUint32BE, be32.
  rewrite !byte_of_shift by lia.
  change 255 with (Z.ones 8). rewrite Z.land_ones by lia. reflexivity.
Qed.

Lemma handleCharacteristicWrite_mmr_read v s :
  handleCharacteristicWrite CHAR_READ_FROM_MMR v s = handleMMRReadRequest v s.
Proof. reflexivity. Qed.

(** C2 (GHC mode at 0x80381C): a read-from-MMR write of at least four bytes
    makes the Controller push exactly one notification on READ_FROM_MMR: the
    address of bytes [1..4) big-endian, then the canned value
    little-endian. *)
Theorem mmr_read_response (value : list Z) (s : Sim) :
  (4 <= List.length value)%nat -> connected s = true -> 0 <= ghc s <= 4 ->
  let address :=
    BinaryCodec.decodeAddress (byte_at value 1) (byte_at value 2) (byte_at value 3) in
  sent (handleCharacteristicWrite CHAR_READ_FROM_MMR value s) =
  sent s ++ [CmdNotify CHAR_READ_FROM_MMR
               (be32 address ++ le32 (mmr_canned (ghc s) address))].
Proof.
  intros Hl Hc Hg address.
  rewrite handleCharacteristicWrite_mmr_read.
  unfold handleMMRReadRequest, logTx, logRx, sendNotification, sendCommand.
  replace (List.length value <? 4)%nat with false
    by (symmetry; apply Nat.ltb_ge; exact Hl).
  cbv zeta. fold address. cbn [connected log]. rewrite Hc.
  unfold log, set_sent. cbn [sent ghc].
  apply (f_equal (fun d => sent s ++ [CmdNotify CHAR_READ_FROM_MMR d])).
  rewrite encodeUint32BE_be32. unfold mmr_canned, MMR.GHC_INFO,
    MMR.USB_CHARGER, MMR.MACHINE_MODEL, MMR.FIRMWARE_VERSION.
  unfold be32. cbn [app list_set].
  destruct (address =? 8402972).
  - assert (ghc s = 0 \/ ghc s = 1 \/ ghc s = 2 \/ ghc s = 3 \/ ghc s = 4)
      as Hcases by lia.
    destruct Hcases as [E | [E | [E | [E | E]]]]; rewrite E; reflexivity.
  - destruct (address =? 8403028); [reflexivity |].
    destruct (address =? 8388620); [reflexivity |].
    destruct (address =? 8388624); reflexivity.
Qed.

Lemma mmr_read_response_witness :
  sent (handleCharacteristicWrite CHAR_READ_FROM_MMR [0; 128; 56; 28] idle_ghc0) =
  [CmdNotify CHAR_READ_FROM_MMR
     (be32 8402972 ++ le32 (mmr_canned 0 8402972))].
Proof.
  apply (mmr_read_response [0; 128; 56; 28] idle_ghc0).
  - simpl. lia.
  - reflexivity.
  - simpl. lia.
Defined.

(** C2 fails as stated at 0x803820: with GHC mode 3 the response there
    carries 0, not the GHC mode ([0x803820] is [GHC_MODE], not
    [GHC_INFO]). *)
Lemma mmr_read_ghc_mode_counterexample :
  sent (handleCharacteristicWrite CHAR_READ_FROM_MMR [0; 128; 56; 32] (initial true)) =
  [CmdNotify CHAR_READ_FROM_MMR [0; 128; 56; 32; 0; 0; 0; 0]] /\
  ghc (initial true) = 3 /\
  ~ In (CmdNotify CHAR_READ_FROM_MMR (be32 8402976 ++ le32 (ghc (initial true))))
       (sent (handleCharacteristicWrite CHAR_READ_FROM_MMR [0; 128; 56; 32]
                (initial true))).
Proof.
  split; [reflexivity |]. split; [reflexivity |].
  vm_compute. intros [H | H]; [discriminate H | exact H].
Qed.

(* ------------------------------------------------------------------------ *)
(** ** Radio Agent: Controller disconnect *)

(** The embedded Agent after boot and one Controller connection. *)
Definition embedded_with_controller : AgentModel.Agent :=
  EmbeddedDaemon.step AgentModel.TcpNewConnection (AgentModel.boot true).

(** C3: the standalone daemon keeps its BLE state (advertising and the
    central connection) when the Controller disconnects; the embedded copy
    that the setup wizard deploys stops advertising at that event. *)
Theorem controller_disconnect_advertising :
  (forall a : AgentModel.Agent,
     AgentModel.advertising (Daemon.step AgentModel.TcpDisconnected a)
       = AgentModel.advertising a /\
     AgentModel.bleCentral (Daemon.step AgentModel.TcpDisconnected a)
       = AgentModel.bleCentral a) /\
  AgentModel.advertising embedded_with_controller = true /\
  AgentModel.advertising
    (EmbeddedDaemon.step AgentModel.TcpDisconnected embedded_with_controller)
    = false.
Proof.
  split; [| split; reflexivity].
  intros a. unfold Daemon.step. destruct (AgentModel.tcpClient a); split; reflexivity.
Qed.

(* ------------------------------------------------------------------------ *)
(** ** Profile assembler *)

Lemma byte_at_range l i : 0 <= byte_at l i <= 255.
Proof.
  unfold byte_at. change 255 with (Z.ones 8). rewrite Z.land_ones by lia.
  pose proof (Z.mod_pos_bound (nth i l 0) (2 ^ 8) ltac:(lia)) as H.
  change (Z.ones 8) with 255. change (2 ^ 8) with 256 in *. lia.
Qed.

Lemma length_list_set {A} (l : list A) i x : List.length (list_set l i x) = List.length l.
Proof.
  revert i. induction l as [| y l IH]; intros [| i]; simpl; auto.
Qed.

Lemma nth_list_set {A} (l : list A) i j x d :
  (i < List.length l)%nat ->
  nth j (list_set l i x) d = if Nat.eqb i j then x else nth j l d.
Proof.
  revert i j. induction l as [| y l IH]; intros i j Hi; simpl in Hi; [lia |].
  destruct i as [| i], j as [| j]; simpl; auto.
  apply IH. lia.
Qed.

Lemma handleHeaderWrite_profile h s :
  (5 <= List.length h)%nat ->
  numFrames (profileHeader (handleHeaderWrite h s)) = byte_at h 1 /\
  profileFrames (handleHeaderWrite h s) =
    repeat default_frame (Z.to_nat (byte_at h 1)).
Proof.
  intros Hl. unfold handleHeaderWrite.
  replace (List.length h <? 5)%nat with false
    by (symmetry; apply Nat.ltb_ge; exact Hl).
  split; reflexivity.
Qed.

(** The frame a primary FRAME_WRITE stores at its index. *)
Definition primary_frame (w : list Z) (f : ProfileFrame) : ProfileFrame :=
  mkFrame (byte_at w 0) (byte_at w 1)
    (BinaryCodec.decodeU8P4 (byte_at w 2)) (BinaryCodec.decodeU8P1 (byte_at w 3))
    (BinaryCodec.decodeF8_1_7 (byte_at w 4)) (BinaryCodec.decodeU8P4 (byte_at w 5))
    (BinaryCodec.decodeU10P0 (byte_at w 6) (byte_at w 7))
    (hasExtension f) (limiterValue f) (limiterRange f).

Lemma handleFrameWrite_primary w s :
  (8 <= List.length w)%nat -> byte_at w 0 < 32 ->
  byte_at w 0 <> numFrames (profileHeader s) ->
  (Z.to_nat (byte_at w 0) < List.length (profileFrames s))%nat ->
  profileHeader (handleFrameWrite w s) = profileHeader s /\
  profileFrames (handleFrameWrite w s) =
    list_set (profileFrames s) (Z.to_nat (byte_at w 0))
      (primary_frame w (nth (Z.to_nat (byte_at w 0)) (profileFrames s) default_frame)).
Proof.
  intros Hl H32 Hn Hin. pose proof (byte_at_range w 0) as Hr.
  unfold handleFrameWrite.
  replace (List.length w <? 8)%nat with false
    by (symmetry; apply Nat.ltb_ge; exact Hl).
  replace (32 <=? byte_at w 0) with false by (symmetry; apply Z.leb_gt; exact H32).
  replace (byte_at w 0 =? numFrames (profileHeader s)) with false
    by (symmetry; apply Z.eqb_neq; exact Hn).
  replace (byte_at w 0 <? Z.of_nat (List.length (profileFrames s))) with true.
  2:{ symmetry. apply Z.ltb_lt. rewrite <- (Z2Nat.id (byte_at w 0)) at 1 by lia.
      apply Nat2Z.inj_lt. exact Hin. }
  split; reflexivity.
Qed.

Definition profile_upload (h : list Z) (ws : list (list Z)) (s : Sim) : Sim :=
  fold_left (fun s w => handleFrameWrite w s) ws (handleHeaderWrite h s).

(** The assembler invariant for [N] frame slots. *)
Definition slots (N : Z) (s : Sim) : Prop :=
  numFrames (profileHeader s) = N /\ List.length (profileFrames s) = Z.to_nat N.

Definition primary_write (N : Z) (w : list Z) : Prop :=
  (8 <= List.length w)%nat /\ byte_at w 0 < N.

Lemma upload_step N w s :
  N <= 32 -> slots N s -> primary_write N w ->
  slots N (handleFrameWrite w s) /\
  forall j, nth j (profileFrames (handleFrameWrite w s)) default_frame =
            if Nat.eqb (Z.to_nat (byte_at w 0)) j
            then primary_frame w (nth j (profileFrames s) default_frame)
            else nth j (profileFrames s) default_frame.
Proof.
  intros HN [Hh Hlen] [Hl Hi]. pose proof (byte_at_range w 0) as Hr.
  destruct (handleFrameWrite_primary w s Hl ltac:(lia) ltac:(lia) ltac:(lia))
    as [Eh Ef].
  split; [split |].
  - rewrite Eh. exact Hh.
  - rewrite Ef, length_list_set. exact Hlen.
  - intros j. rewrite Ef, nth_list_set by lia.
    destruct (Nat.eqb_spec (Z.to_nat (byte_at w 0)) j) as [<- | _]; reflexivity.
Qed.

Lemma upload_fold N ws s :
  N <= 32 -> slots N s -> (forall w, In w ws -> primary_write N w) ->
  let s' := fold_left (fun s w => handleFrameWrite w s) ws s in
  slots N s' /\
  (forall j, (forall w, In w ws -> Z.to_nat (byte_at w 0) <> j) ->
     nth j (profileFrames s') default_frame = nth j (profileFrames s) default_frame) /\
  (forall j, (exists w, In w ws /\ Z.to_nat (byte_at w 0) = j) ->
     frameIndex (nth j (profileFrames s') default_frame) = Z.of_nat j).
Proof.
  intros HN. revert s.
  induction ws as [| w ws IH]; intros s Hs Hw s'; subst s'; simpl.
  - split; [exact Hs | split; [reflexivity |]].
    intros j [w [[] _]].
  - assert (Hpw : primary_write N w) by (apply Hw; left; reflexivity).
    destruct (upload_step N w s HN Hs Hpw) as [Hs1 Hnth].
    destruct (IH (handleFrameWrite w s) Hs1 (fun w' H => Hw w' (or_intror H)))
      as [Hslots [Hkeep Hset]].
    split; [exact Hslots | split].
    + intros j Hnot. rewrite Hkeep by (intros w' H; apply Hnot; right; exact H).
      rewrite Hnth. destruct (Nat.eqb_spec (Z.to_nat (byte_at w 0)) j) as [E | _];
        [exfalso; apply (Hnot w); [left; reflexivity | exact E] | reflexivity].
    + intros j Hex.
      destruct (existsb (fun w' => Nat.eqb (Z.to_nat (byte_at w' 0)) j) ws)
        eqn:Eb.
      * apply Hset. apply existsb_exists in Eb as [w' [Hin Heq]].
        exists w'. split; [exact Hin | apply Nat.eqb_eq; exact Heq].
      * rewrite Hkeep.
        -- rewrite Hnth. destruct Hex as [w' [[<- | Hin] Hj]].
           ++ rewrite <- Hj, Nat.eqb_refl. simpl.
              pose proof (byte_at_range w 0). lia.
           ++ exfalso. assert (existsb (fun w' => Nat.eqb (Z.to_nat (byte_at w' 0)) j) ws
                                = true) as Et.
              { apply existsb_exists. exists w'. split; [exact Hin |].
                apply Nat.eqb_eq; exact Hj. }
              congruence.
        -- intros w' Hin Hj. assert (existsb (fun w' => Nat.eqb (Z.to_nat (byte_at w' 0)) j) ws
                                = true) as Et.
           { apply existsb_exists. exists w'. split; [exact Hin |].
             apply Nat.eqb_eq; exact Hj. }
           congruence.
Qed.

(** C6 (for at most 32 frames): after a HEADER_WRITE declaring
    [N = numFrames <= 32] and primary FRAME_WRITEs whose indices cover
    [0..N-1], the profile holds exactly [N] frames and frame [i] carries
    [frameIndex = i]. *)
Theorem profile_upload_indices (h : list Z) (ws : list (list Z)) (s : Sim) :
  (5 <= List.length h)%nat ->
  byte_at h 1 <= 32 ->
  (forall w, In w ws -> (8 <= List.length w)%nat /\ byte_at w 0 < byte_at h 1) ->
  (forall i, 0 <= i < byte_at h 1 -> exists w, In w ws /\ byte_at w 0 = i) ->
  let fs := profileFrames (profile_upload h ws s) in
  List.length fs = Z.to_nat (byte_at h 1) /\
  forall i, (i < List.length fs)%nat -> frameIndex (nth i fs default_frame) = Z.of_nat i.
Proof.
  intros Hl H32 Hw Hcov fs.
  destruct (handleHeaderWrite_profile h s Hl) as [Hn Hf].
  assert (Hs : slots (byte_at h 1) (handleHeaderWrite h s)).
  { split; [exact Hn | rewrite Hf, repeat_length; reflexivity]. }
  destruct (upload_fold (byte_at h 1) ws (handleHeaderWrite h s) H32 Hs Hw)
    as [[_ Hlen] [_ Hset]].
  split; [exact Hlen |].
  intros i Hi. apply Hset. unfold fs, profile_upload in Hi. rewrite Hlen in Hi.
  destruct (Hcov (Z.of_nat i) ltac:(lia)) as [w [Hin Hb]].
  exists w. split; [exact Hin | rewrite Hb; apply Nat2Z.id].
Qed.

Definition frame_write_at (i : Z) : list Z := [i; 0; 0; 0; 0; 0; 0; 0].

Lemma profile_upload_indices_witness :
  List.length (profileFrames (profile_upload [1; 3; 1; 16; 32]
                 (map frame_write_at [2; 0; 1]) idle_ghc0)) = 3%nat.
Proof.
  apply (profile_upload_indices [1; 3; 1; 16; 32] (map frame_write_at [2; 0; 1])
           idle_ghc0).
  - simpl. lia.
  - vm_compute. discriminate.
  - intros w Hin. simpl in Hin.
    destruct Hin as [<- | [<- | [<- | []]]]; (split; [simpl; lia | reflexivity]).
  - intros i Hi. change (byte_at [1; 3; 1; 16; 32] 1) with 3 in Hi.
    assert (i = 0 \/ i = 1 \/ i = 2) as [-> | [-> | ->]] by lia.
    + exists (frame_write_at 0). split; [simpl; tauto | reflexivity].
    + exists (frame_write_at 1). split; [simpl; tauto | reflexivity].
    + exists (frame_write_at 2). split; [simpl; tauto | reflexivity].
Defined.

(** C6 fails as stated for [N = 33]: wire index 32 is taken as the
    extension record of frame 0, so frame 32 keeps [frameIndex = 0]. *)
Lemma profile_upload_33_counterexample :
  let s' := profile_upload [1; 33; 0; 0; 0]
              (map frame_write_at (map Z.of_nat (seq 0 33))) idle_ghc0 in
  List.length (profileFrames s') = 33%nat /\
  frameIndex (nth 32 (profileFrames s') default_frame) = 0 /\
  hasExtension (nth 0 (profileFrames s') default_frame) = true.
Proof. vm_compute. repeat split. Qed.

(** C8: after a header declaring at least one frame, FRAME_WRITE
    [00 01 40 BE 32 00 00 64] sets frame 0 to Flow mode, setVal 4.0,
    temp 95.0, duration 5.0, triggerVal 0 and maxVol 100. *)
Theorem frame_write_example (h : list Z) (s : Sim) :
  (5 <= List.length h)%nat -> 1 <= byte_at h 1 ->
  let s' := handleFrameWrite [0; 1; 64; 190; 50; 0; 0; 100] (handleHeaderWrite h s) in
  let f := nth 0 (profileFrames s') default_frame in
  (0 < List.length (profileFrames s'))%nat /\
  frameIndex f = 0 /\ flags f = 1 /\ Z.land (flags f) 1 = 1 /\
  (setVal f == 4)%Q /\ (temp f == 95)%Q /\ (duration f == 5)%Q /\
  (triggerVal f == 0)%Q /\ maxVol f = 100.
Proof.
  intros Hl H1 s' f.
  destruct (handleHeaderWrite_profile h s Hl) as [Hn Hf].
  pose proof (byte_at_range h 1) as Hr.
  assert (Hlen : List.length (profileFrames (handleHeaderWrite h s)) = Z.to_nat (byte_at h 1))
    by (rewrite Hf, repeat_length; reflexivity).
  destruct (handleFrameWrite_primary [0; 1; 64; 190; 50; 0; 0; 100]
              (handleHeaderWrite h s) ltac:(simpl; lia) ltac:(vm_compute; reflexivity)
              ltac:(rewrite Hn; change (byte_at [0; 1; 64; 190; 50; 0; 0; 100] 0) with 0; lia)
              ltac:(rewrite Hlen; change (byte_at [0; 1; 64; 190; 50; 0; 0; 100] 0) with 0;
                    lia))
    as [_ Ef].
  assert (Hf0 : f = primary_frame [0; 1; 64; 190; 50; 0; 0; 100]
                      (nth 0 (profileFrames (handleHeaderWrite h s)) default_frame)).
  { unfold f, s'. rewrite Ef. change (Z.to_nat (byte_at [0; 1; 64; 190; 50; 0; 0; 100] 0))
      with 0%nat.
    rewrite nth_list_set by lia. reflexivity. }
  split.
  - unfold s'. rewrite Ef, length_list_set. lia.
  - rewrite Hf0. unfold primary_frame. cbn [frameIndex flags setVal temp duration
      triggerVal maxVol].
    repeat split; reflexivity.
Qed.

Lemma frame_write_example_witness :
  maxVol (nth 0 (profileFrames (handleFrameWrite [0; 1; 64; 190; 50; 0; 0; 100]
                  (handleHeaderWrite [1; 3; 1; 16; 32] idle_ghc0))) default_frame) = 100.
Proof.
  apply (frame_write_example [1; 3; 1; 16; 32] idle_ghc0).
  - simpl. lia.
  - vm_compute. discriminate.
Defined.

(* ------------------------------------------------------------------------ *)
(** ** Phase scheduler *)

(** What the scheduler reads and writes: the pair and the timers. *)
Definition sched (s : Sim) := (currentState s, currentSubState s, timers s).

Lemma sched_sendCommand c s : sched (sendCommand c s) = sched s.
Proof. unfold sendCommand. destruct (connected s); reflexivity. Qed.

Lemma sched_sendShotSample s : sched (sendShotSample s) = sched s.
Proof.
  unfold sendShotSample, sendNotification. destruct (negb (connected s));
    [reflexivity | apply sched_sendCommand].
Qed.

Lemma sched_updateSimulationValues q s : sched (updateSimulationValues q s) = sched s.
Proof. unfold updateSimulationValues. cbv zeta. split_ifs; reflexivity. Qed.

Lemma sched_onShotTimerTick q s : sched (onShotTimerTick q s) = sched s.
Proof.
  unfold onShotTimerTick. cbv zeta.
  rewrite sched_sendShotSample, sched_updateSimulationValues. reflexivity.
Qed.

Lemma sched_sendWaterLevel s : sched (sendWaterLevel s) = sched s.
Proof.
  unfold sendWaterLevel, sendNotification. destruct (negb (connected s));
    [reflexivity | apply sched_sendCommand].
Qed.

Lemma sched_transitionToState st sub s :
  sched (transitionToState st sub s) = (st, sub, timers s).
Proof.
  destruct (control_transitionToState st sub s) as (H1 & H2 & _ & _ & H5 & _).
  unfold sched. rewrite H1, H2, H5. reflexivity.
Qed.

(** The Espresso ladder: (state, substate, armed phase interval) after each
    phase timeout, starting from the start operation. *)
Definition espresso_ladder : list (State * SubState * option Z) :=
  [(Espresso, Heating, Some 2000); (Espresso, Preinfusion, Some 5000);
   (Espresso, Pouring, Some 25000); (Espresso, Ending, Some 2000);
   (Idle, Ready, None)].

Definition ladder_view (k : nat) (x : State * SubState * Timers) : Prop :=
  let '(st, sub, t) := x in
  (st, sub, phaseTimer t) = nth k espresso_ladder (Idle, Ready, None) /\
  shotTimer_on t = (k <? 4)%nat /\ (k <= 4)%nat.

Definition ladder_at (k : nat) (s : Sim) : Prop := ladder_view k (sched s).

Fixpoint phase_count (evs : list TimerEvent) : nat :=
  match evs with
  | [] => O
  | PhaseTimeout :: r => S (phase_count r)
  | _ :: r => phase_count r
  end.

Lemma sched_start_phaseTimer_transition ms st sub s :
  sched (start_phaseTimer ms (transitionToState st sub s)) =
  (st, sub, mkTimers (shotTimer_on (timers s)) (Some ms) (waterTimer_on (timers s))).
Proof.
  destruct (control_transitionToState st sub s) as (H1 & H2 & _ & _ & H5 & _).
  unfold sched, start_phaseTimer, set_timers. cbn [currentState currentSubState timers].
  rewrite H1, H2, H5. reflexivity.
Qed.

Lemma sched_stopOperation s :
  sched (stopOperation s) = (Idle, Ready, mkTimers false None (waterTimer_on (timers s))).
Proof. unfold stopOperation. rewrite sched_transitionToState. reflexivity. Qed.

Lemma onPhaseTimeout_heating s :
  currentState s = Espresso -> currentSubState s = Heating ->
  onPhaseTimeout s = start_phaseTimer 5000 (transitionToState Espresso Preinfusion s).
Proof. intros H1 H2. unfold onPhaseTimeout. rewrite H1, H2. reflexivity. Qed.

Lemma onPhaseTimeout_preinfusion s :
  currentState s = Espresso -> currentSubState s = Preinfusion ->
  onPhaseTimeout s = start_phaseTimer 25000 (transitionToState Espresso Pouring s).
Proof. intros H1 H2. unfold onPhaseTimeout. rewrite H1, H2. reflexivity. Qed.

Lemma onPhaseTimeout_pouring s :
  currentState s = Espresso -> currentSubState s = Pouring ->
  onPhaseTimeout s = start_phaseTimer 2000 (transitionToState Espresso Ending s).
Proof. intros H1 H2. unfold onPhaseTimeout. rewrite H1, H2. reflexivity. Qed.

Lemma onPhaseTimeout_ending s :
  currentState s = Espresso -> currentSubState s = Ending ->
  onPhaseTimeout s = stopOperation s.
Proof. intros H1 H2. unfold onPhaseTimeout. rewrite H1, H2. reflexivity. Qed.

Lemma ladder_step q k s e s' :
  ladder_at k s -> fire q e s = Some s' ->
  (e = PhaseTimeout /\ ladder_at (S k) s') \/ (e <> PhaseTimeout /\ ladder_at k s').
Proof.
  unfold ladder_at. intros Hl Hf.
  destruct e; [right | left | right].
  - split; [discriminate |]. simpl in Hf.
    destruct (shotTimer_on (timers s)); [| discriminate].
    injection Hf as <-. rewrite sched_onShotTimerTick. exact Hl.
  - split; [reflexivity |]. simpl in Hf.
    unfold sched in Hl. destruct (timers s) as [shot ph water] eqn:Et.
    destruct Hl as (Hv & Hshot & Hk). simpl in Hshot.
    destruct ph as [ms |]; [| discriminate]. injection Hf as <-.
    set (t := stop_phaseTimer s).
    assert (Ht : timers t = mkTimers shot None water)
      by (unfold t, stop_phaseTimer, set_timers; simpl; rewrite Et; reflexivity).
    assert (Hst : currentState t = currentState s) by reflexivity.
    assert (Hsub : currentSubState t = currentSubState s) by reflexivity.
    assert (k = 0 \/ k = 1 \/ k = 2 \/ k = 3 \/ k = 4)%nat as Hc by lia.
    destruct Hc as [-> | [-> | [-> | [-> | ->]]]]; simpl in Hv, Hshot;
      inversion Hv as [[E1 E2 E3]]; subst shot.
    + rewrite onPhaseTimeout_heating by congruence.
      rewrite sched_start_phaseTimer_transition, Ht. simpl. split; [reflexivity | split; [reflexivity | lia]].
    + rewrite onPhaseTimeout_preinfusion by congruence.
      rewrite sched_start_phaseTimer_transition, Ht. simpl. split; [reflexivity | split; [reflexivity | lia]].
    + rewrite onPhaseTimeout_pouring by congruence.
      rewrite sched_start_phaseTimer_transition, Ht. simpl. split; [reflexivity | split; [reflexivity | lia]].
    + rewrite onPhaseTimeout_ending by congruence.
      rewrite sched_stopOperation. simpl. split; [reflexivity | split; [reflexivity | lia]].
  - split; [discriminate |]. simpl in Hf.
    destruct (waterTimer_on (timers s)); [| discriminate].
    injection Hf as <-. rewrite sched_sendWaterLevel. exact Hl.
Qed.

Lemma sched_start_shotTimer s :
  sched (start_shotTimer s) =
  (currentState s, currentSubState s,
   mkTimers true (phaseTimer (timers s)) (waterTimer_on (timers s))).
Proof. reflexivity. Qed.

Lemma ladder_start s :
  currentState s = Idle \/ currentState s = Sleep ->
  ladder_at 0 (startOperation Espresso s).
Proof.
  intros Hs. unfold startOperation.
  replace (negb (currentState s =? Idle) && negb (currentState s =? Sleep)) with false
    by (destruct Hs as [-> | ->]; reflexivity).
  cbv zeta. change (Espresso =? Espresso) with true. cbv iota.
  unfold ladder_at. rewrite sched_start_shotTimer.
  pose proof (sched_start_phaseTimer_transition 2000 Espresso Heating
                (set_vals (reset_run_values (vals s)) s)) as E.
  set (x := start_phaseTimer 2000 _) in *. clearbody x.
  unfold sched in E. injection E as E1 E2 E3. rewrite E1, E2, E3.
  simpl. split; [reflexivity | split; [reflexivity | lia]].
Qed.

Lemma ladder_run q evs k s s' :
  ladder_at k s -> run_timers q evs s = Some s' -> ladder_at (k + phase_count evs) s'.
Proof.
  revert k s. induction evs as [| e evs IH]; intros k s Hl Hr.
  - simpl in Hr. injection Hr as <-. rewrite Nat.add_0_r. exact Hl.
  - simpl in Hr. destruct (fire q e s) as [t |] eqn:Hf; [| discriminate].
    destruct (ladder_step q k s e t Hl Hf) as [[-> Ht] | [Hne Ht]].
    + simpl. rewrite <- Nat.add_succ_comm. exact (IH (S k) t Ht Hr).
    + replace (phase_count (e :: evs)) with (phase_count evs)
        by (destruct e; [reflexivity | contradiction | reflexivity]).
      exact (IH k t Ht Hr).
Qed.

(** C5: an Espresso run begun by the start operation (from Idle or Sleep)
    passes through (Espresso, Heating) with a 2000 ms phase timer, then
    Preinfusion (5000 ms), Pouring (25000 ms), Ending (2000 ms) and stops at
    (Idle, Ready) with no timer armed: after any interleaving of timer
    expiries, the pair and the armed interval are the ladder entry indexed by
    the number of phase timeouts so far, which never exceeds four. *)
Theorem espresso_phase_ladder (qSin : Q -> Q) (s : Sim) (evs : list TimerEvent)
  (s' : Sim) :
  (currentState s = Idle \/ currentState s = Sleep) ->
  run_timers qSin evs (startOperation Espresso s) = Some s' ->
  (phase_count evs <= 4)%nat /\
  (currentState s', currentSubState s', phaseTimer (timers s')) =
    nth (phase_count evs) espresso_ladder (Idle, Ready, None).
Proof.
  intros Hs Hr.
  pose proof (ladder_run qSin evs 0 _ s' (ladder_start s Hs) Hr) as Hl.
  unfold ladder_at, sched, ladder_view in Hl. simpl in Hl.
  destruct Hl as (Hv & _ & Hk). split; [exact Hk | exact Hv].
Qed.

Lemma espresso_phase_ladder_witness :
  run_timers (fun _ => 0%Q) [ShotTick; PhaseTimeout; ShotTick; PhaseTimeout]
    (startOperation Espresso idle_ghc0) <> None /\
  (forall s', run_timers (fun _ => 0%Q) [ShotTick; PhaseTimeout; ShotTick; PhaseTimeout]
                (startOperation Espresso idle_ghc0) = Some s' ->
   (currentState s', currentSubState s', phaseTimer (timers s')) =
     (Espresso, Pouring, Some 25000)).
Proof.
  split; [vm_compute; discriminate |].
  intros s' Hr.
  exact (proj2 (espresso_phase_ladder (fun _ => 0%Q) idle_ghc0 _ s'
                  (or_introl eq_refl) Hr)).
Defined.

(** A malformed JSON line on the control channel is consumed from the buffer
    and logged as an ERROR; nothing else of the simulator changes. *)
Lemma malformed_line_logged fj line rest s :
  split_line (tcpBuffer s) = Some (line, rest) -> line <> [] -> fj line = None ->
  processLines fj 1 s = log ERROR MsgJsonParseError (set_buffer rest s).
Proof.
  intros Hs Hl Hj. simpl. rewrite Hs.
  destruct line as [| b l]; [contradiction |]. rewrite Hj. reflexivity.
Qed.

(** The sibling handlers log an undersized payload before dropping it. *)
Lemma short_profile_writes_logged v s :
  (List.length v < 5)%nat ->
  handleCharacteristicWrite CHAR_HEADER_WRITE v s =
    logRx (MsgHeaderInvalid (List.length v)) s /\
  handleCharacteristicWrite CHAR_FRAME_WRITE v s =
    logRx (MsgFrameInvalid (List.length v)) s /\
  handleCharacteristicWrite CHAR_SHOT_SETTINGS v s =
    logRx (MsgShotSettingsInvalid (List.length v)) s.
Proof.
  intros Hv. unfold handleCharacteristicWrite. cbn [String.eqb Ascii.eqb Bool.eqb
    CHAR_HEADER_WRITE CHAR_FRAME_WRITE CHAR_SHOT_SETTINGS CHAR_REQUESTED_STATE
    CHAR_READ_FROM_MMR CHAR_WRITE_TO_MMR].
  unfold handleHeaderWrite, handleFrameWrite, handleShotSettings.
  replace (List.length v <? 5)%nat with true by (symmetry; apply Nat.ltb_lt; lia).
  replace (List.length v <? 8)%nat with true by (symmetry; apply Nat.ltb_lt; lia).
  replace (List.length v <? 9)%nat with true by (symmetry; apply Nat.ltb_lt; lia).
  repeat split; reflexivity.
Qed.

(** C9: the undersized REQUESTED_STATE, read-from-MMR and write-to-MMR
    writes are dropped without any log entry: the handler returns the
    simulator exactly as it was, log included, while the header, frame and
    shot-settings handlers log the same undersized payload. *)
Theorem short_writes_dropped_silently (s : Sim) (v : list Z) :
  (List.length v < 4)%nat ->
  handleCharacteristicWrite CHAR_REQUESTED_STATE [] s = s /\
  handleCharacteristicWrite CHAR_READ_FROM_MMR v s = s /\
  handleCharacteristicWrite CHAR_WRITE_TO_MMR v s = s /\
  logv (handleCharacteristicWrite CHAR_HEADER_WRITE v s) =
    logv s ++ [(RX, MsgHeaderInvalid (List.length v))].
Proof.
  intros Hv.
  destruct (short_profile_writes_logged v s ltac:(lia)) as (Hh & _ & _).
  rewrite Hh. split; [reflexivity |]. split; [| split; [| reflexivity]].
  - unfold handleCharacteristicWrite. cbn [String.eqb Ascii.eqb Bool.eqb
      CHAR_REQUESTED_STATE CHAR_READ_FROM_MMR].
    unfold handleMMRReadRequest.
    replace (List.length v <? 4)%nat with true by (symmetry; apply Nat.ltb_lt; lia).
    reflexivity.
  - unfold handleCharacteristicWrite. cbn [String.eqb Ascii.eqb Bool.eqb
      CHAR_REQUESTED_STATE CHAR_READ_FROM_MMR CHAR_WRITE_TO_MMR].
    unfold handleMMRWrite.
    replace (List.length v <? 8)%nat with true by (symmetry; apply Nat.ltb_lt; lia).
    reflexivity.
Qed.

Lemma short_writes_dropped_silently_witness :
  (List.length [128; 56] < 4)%nat /\
  handleCharacteristicWrite CHAR_READ_FROM_MMR [128; 56] idle_ghc0 = idle_ghc0.
Proof.
  split; [simpl; lia |].
  apply (short_writes_dropped_silently idle_ghc0 [128; 56]); simpl; lia.
Defined.

(* ======================================================================== *)
(** * Further properties of the code *)

(* ------------------------------------------------------------------------ *)
(** ** Byte codecs *)

Lemma land_disjoint_shift (x y k : Z) :
  0 <= k -> 0 <= y < 2 ^ k -> Z.land (x * 2 ^ k) y = 0.
Proof.
  intros Hk Hy. apply Z.bits_inj'. intros n Hn.
  rewrite Z.land_spec, Z.bits_0.
  destruct (Z.lt_ge_cases n k) as [Hlt | Hge].
  - rewrite Z.mul_pow2_bits_low by lia. reflexivity.
  - replace (Z.testbit y n) with false; [apply andb_false_r |].
    symmetry. rewrite <- (Z.mod_small y (2 ^ k)) by lia.
    apply Z.mod_pow2_bits_high. lia.
Qed.

(** [x << k | y] adds when [y] fits in the low [k] bits. *)
Lemma lor_shiftl_disjoint (x y k : Z) :
  0 <= k -> 0 <= y < 2 ^ k -> Z.lor (Z.shiftl x k) y = x * 2 ^ k + y.
Proof.
  intros Hk Hy. rewrite Z.shiftl_mul_pow2 by exact Hk.
  rewrite <- Z.add_lor_land, land_disjoint_shift by assumption. lia.
Qed.

Lemma byte_land (v : Z) : Z.land v 255 = v mod 256.
Proof. change 255 with (Z.ones 8). rewrite Z.land_ones by lia. reflexivity. Qed.

Lemma byte_at_bounds (l : list Z) (i : nat) : 0 <= byte_at l i < 256.
Proof. unfold byte_at. rewrite byte_land. apply Z.mod_pos_bound. lia. Qed.

Lemma shortBE_decode_encode (v : Z) :
  0 <= v < 65536 ->
  BinaryCodec.decodeShortBE (nth 0 (BinaryCodec.encodeShortBE v) 0)
    (nth 1 (BinaryCodec.encodeShortBE v) 0) = v.
Proof.
  intros Hv. unfold BinaryCodec.encodeShortBE.
  rewrite byte_of_shift, byte_land by lia.
  replace ((v / 2 ^ 8) mod 256) with (v / 256)
    by (rewrite Z.mod_small; [reflexivity | split; [apply Z.div_pos | apply Z.div_lt_upper_bound]; lia]).
  cbn [nth]. unfold BinaryCodec.decodeShortBE, Qt.to_uw.
  rewrite lor_shiftl_disjoint by (try apply Z.mod_pos_bound; lia).
  rewrite (Z.mul_comm (v / 256)). change (2 ^ 8) with 256.
  rewrite <- Z.div_mod by lia. apply Z.mod_small. change (2 ^ 16) with 65536. lia.
Qed.

Lemma encodeShortBE_bytes (v : Z) : Forall (fun b => 0 <= b < 256) (BinaryCodec.encodeShortBE v).
Proof.
  unfold BinaryCodec.encodeShortBE. rewrite !byte_land.
  repeat constructor; apply Z.mod_pos_bound; lia.
Qed.

(** The big-endian 16-bit codec: the two bytes written by [encodeShortBE]
    are bytes, and [decodeShortBE] reads the value back. *)
Theorem shortBE_roundtrip (v : Z) :
  0 <= v < 65536 ->
  Forall (fun b => 0 <= b < 256) (BinaryCodec.encodeShortBE v) /\
  BinaryCodec.decodeShortBE (nth 0 (BinaryCodec.encodeShortBE v) 0)
    (nth 1 (BinaryCodec.encodeShortBE v) 0) = v.
Proof.
  intros Hv. split; [apply encodeShortBE_bytes | exact (shortBE_decode_encode v Hv)].
Qed.

Lemma shortBE_roundtrip_witness :
  (0 <= 6400 < 65536) /\
  BinaryCodec.decodeShortBE (nth 0 (BinaryCodec.encodeShortBE 6400) 0)
    (nth 1 (BinaryCodec.encodeShortBE 6400) 0) = 6400.
Proof. split; [lia | apply (shortBE_roundtrip 6400); lia]. Defined.

Lemma byte_digit (b x : Z) :
  0 <= b < 256 -> (b + x * 256) mod 256 = b /\ (b + x * 256) / 256 = x.
Proof.
  intros Hb. split.
  - rewrite Z.mod_add by lia. apply Z.mod_small. exact Hb.
  - rewrite Z.div_add by lia. rewrite Z.div_small by exact Hb. reflexivity.
Qed.

(** The 24-bit MMR address: the last three bytes of [encodeUint32BE a]
    decode back to [a] with [decodeAddress], and the first byte is 0. *)
Theorem mmr_address_roundtrip (a : Z) :
  0 <= a < 2 ^ 24 ->
  nth 0 (BinaryCodec.encodeUint32BE a) 0 = 0 /\
  BinaryCodec.decodeAddress (nth 1 (BinaryCodec.encodeUint32BE a) 0)
    (nth 2 (BinaryCodec.encodeUint32BE a) 0)
    (nth 3 (BinaryCodec.encodeUint32BE a) 0) = a.
Proof.
  intros Ha. rewrite encodeUint32BE_be32. unfold be32. cbn [nth].
  assert (E24 : a / 2 ^ 24 = 0) by (apply Z.div_small; exact Ha).
  rewrite E24. split; [reflexivity |].
  set (q := a / 256).
  assert (Eq : a = 256 * q + a mod 256) by (apply Z.div_mod; lia).
  assert (Eq2 : q = 256 * (q / 256) + q mod 256) by (apply Z.div_mod; lia).
  assert (E16 : a / 2 ^ 16 = q / 256)
    by (unfold q; rewrite Z.div_div by lia; reflexivity).
  change (2 ^ 8) with 256. fold q. rewrite E16.
  assert (Hq : 0 <= q / 256 < 256).
  { unfold q. rewrite Z.div_div by lia. split; [apply Z.div_pos; lia |].
    apply Z.div_lt_upper_bound; [lia |]. change (2 ^ 24) with 16777216 in Ha. lia. }
  rewrite (Z.mod_small (q / 256)) by exact Hq.
  pose proof (Z.mod_pos_bound q 256 ltac:(lia)) as Hq1.
  pose proof (Z.mod_pos_bound a 256 ltac:(lia)) as Ha1.
  unfold BinaryCodec.decodeAddress.
  rewrite (Z.shiftl_mul_pow2 (q mod 256)) by lia.
  rewrite lor_shiftl_disjoint by (change (2 ^ 16) with 65536; change (2 ^ 8) with 256; lia).
  replace (q / 256 * 2 ^ 16 + q mod 256 * 2 ^ 8)
    with (Z.shiftl (q / 256 * 256 + q mod 256) 8)
    by (rewrite Z.shiftl_mul_pow2 by lia; change (2 ^ 8) with 256; change (2 ^ 16) with 65536; ring).
  rewrite lor_shiftl_disjoint by (change (2 ^ 8) with 256; lia).
  change (2 ^ 8) with 256. lia.
Qed.

Lemma mmr_address_roundtrip_witness :
  (0 <= 8402972 < 2 ^ 24) /\
  BinaryCodec.decodeAddress (nth 1 (BinaryCodec.encodeUint32BE 8402972) 0)
    (nth 2 (BinaryCodec.encodeUint32BE 8402972) 0)
    (nth 3 (BinaryCodec.encodeUint32BE 8402972) 0) = 8402972.
Proof.
  split; [split; [lia | reflexivity] |].
  apply (mmr_address_roundtrip 8402972). split; [lia | reflexivity].
Defined.

(** A WRITE_TO_MMR write of at least eight bytes only adds one log line: the
    address of bytes [1..4) and the value of bytes [4..8) read as a
    little-endian 32-bit word. *)
Theorem mmr_write_logged_only (v : list Z) (s : Sim) :
  (8 <= List.length v)%nat ->
  exists val,
    handleCharacteristicWrite CHAR_WRITE_TO_MMR v s =
      logRx (MsgMmrWrite (BinaryCodec.decodeAddress (byte_at v 1) (byte_at v 2)
                            (byte_at v 3)) val) s /\
    0 <= val < 2 ^ 32 /\
    le32 val = [byte_at v 4; byte_at v 5; byte_at v 6; byte_at v 7].
Proof.
  intros Hl.
  pose proof (byte_at_bounds v 4) as B4. pose proof (byte_at_bounds v 5) as B5.
  pose proof (byte_at_bounds v 6) as B6. pose proof (byte_at_bounds v 7) as B7.
  set (b4 := byte_at v 4) in *. set (b5 := byte_at v 5) in *.
  set (b6 := byte_at v 6) in *. set (b7 := byte_at v 7) in *.
  exists (b4 + (b5 + (b6 + b7 * 256) * 256) * 256).
  split; [| split].
  - unfold handleCharacteristicWrite.
    cbn [String.eqb Ascii.eqb Bool.eqb CHAR_REQUESTED_STATE CHAR_READ_FROM_MMR
         CHAR_WRITE_TO_MMR].
    unfold handleMMRWrite.
    replace (List.length v <? 8)%nat with false by (symmetry; apply Nat.ltb_ge; exact Hl).
    cbv zeta. fold b4 b5 b6 b7. f_equal. f_equal.
    rewrite (Z.lor_comm b4), lor_shiftl_disjoint by (change (2 ^ 8) with 256; lia).
    rewrite (Z.lor_comm _ (Z.shiftl b6 16)), lor_shiftl_disjoint
      by (change (2 ^ 16) with 65536; change (2 ^ 8) with 256; lia).
    rewrite (Z.lor_comm _ (Z.shiftl b7 24)), lor_shiftl_disjoint
      by (change (2 ^ 24) with 16777216; change (2 ^ 16) with 65536;
          change (2 ^ 8) with 256; lia).
    unfold Qt.to_uw. rewrite Z.mod_small
      by (change (2 ^ 32) with 4294967296; change (2 ^ 24) with 16777216;
          change (2 ^ 16) with 65536; change (2 ^ 8) with 256; lia).
    change (2 ^ 24) with 16777216; change (2 ^ 16) with 65536;
      change (2 ^ 8) with 256. ring.
  - change (2 ^ 32) with 4294967296. lia.
  - unfold le32.
    destruct (byte_digit b4 (b5 + (b6 + b7 * 256) * 256) B4) as [M1 D1].
    destruct (byte_digit b5 (b6 + b7 * 256) B5) as [M2 D2].
    destruct (byte_digit b6 b7 B6) as [M3 D3].
    replace (2 ^ 16) with (256 * 256) by reflexivity.
    replace (2 ^ 24) with (256 * 256 * 256) by reflexivity.
    change (2 ^ 8) with 256.
    rewrite <- !Z.div_div by lia. rewrite D1, D2, D3, M1, M2, M3.
    rewrite Z.mod_small by exact B7. reflexivity.
Qed.

Lemma mmr_write_logged_only_witness :
  (8 <= List.length [0; 128; 56; 32; 1; 0; 0; 0])%nat /\
  exists val,
    handleCharacteristicWrite CHAR_WRITE_TO_MMR [0; 128; 56; 32; 1; 0; 0; 0] idle_ghc0 =
      logRx (MsgMmrWrite 8402976 val) idle_ghc0 /\
    0 <= val < 2 ^ 32 /\ le32 val = [1; 0; 0; 0].
Proof.
  split; [simpl; lia |].
  exact (mmr_write_logged_only [0; 128; 56; 32; 1; 0; 0; 0] idle_ghc0
           ltac:(simpl; lia)).
Defined.

(** *** The clamping encoders *)

Lemma qBound_in (x M : Q) :
  (0 <= x <= M)%Q -> Qt.trunc (Qt.qBoundQ 0 x M) = Qfloor x.
Proof.
  intros [H0 H1]. unfold Qt.qBoundQ, Qt.qMaxQ, Qt.qMinQ.
  destruct (Qlt_le_dec M x) as [Hlt | _]; [lra |].
  destruct (Qlt_le_dec 0 x) as [Hp | Hn].
  - unfold Qt.trunc. replace (Qle_bool 0 x) with true; [reflexivity |].
    symmetry. apply Qle_bool_iff. lra.
  - assert (Hx : (x == 0)%Q) by lra. rewrite (Qfloor_comp _ _ Hx). reflexivity.
Qed.

Lemma qBound_nonpos (x M : Q) :
  (0 <= M)%Q -> (x <= 0)%Q -> Qt.trunc (Qt.qBoundQ 0 x M) = 0.
Proof.
  intros HM Hx. unfold Qt.qBoundQ, Qt.qMaxQ, Qt.qMinQ.
  destruct (Qlt_le_dec M x) as [Hlt | _]; [lra |].
  destruct (Qlt_le_dec 0 x) as [Hp | Hn]; [lra | reflexivity].
Qed.

Lemma qBound_range (x : Q) (m : Z) :
  0 <= m -> 0 <= Qt.trunc (Qt.qBoundQ 0 x (inject_Z m)) <= m.
Proof.
  intros Hm. unfold Qt.qBoundQ, Qt.qMaxQ, Qt.qMinQ.
  assert (HM : (0 <= inject_Z m)%Q) by (change 0%Q with (inject_Z 0); rewrite <- Zle_Qle; exact Hm).
  set (y := if Qlt_le_dec (inject_Z m) x then inject_Z m else x).
  assert (Hy : (y <= inject_Z m)%Q)
    by (unfold y; destruct (Qlt_le_dec (inject_Z m) x); lra).
  destruct (Qlt_le_dec 0 y) as [Hp | Hn].
  - unfold Qt.trunc. replace (Qle_bool 0 y) with true
      by (symmetry; apply Qle_bool_iff; lra).
    split.
    + change 0 with (Qfloor 0). apply Qfloor_resp_le. lra.
    + rewrite <- (Qfloor_Z m). apply Qfloor_resp_le. exact Hy.
  - change (0 <= Qt.trunc 0 <= m). replace (Qt.trunc 0) with 0 by reflexivity. lia.
Qed.

Lemma scaled_floor_close (v k : Q) (e : Z) :
  (0 < k)%Q -> e = Qfloor (v * k) ->
  (Qabs (inject_Z e / k - v) <= 1 / k)%Q.
Proof.
  intros Hk ->.
  pose proof (Qfloor_le (v * k)) as Hf. pose proof (Qlt_floor (v * k)) as Hc.
  rewrite inject_Z_plus in Hc. change (inject_Z 1) with 1%Q in Hc.
  apply Qabs_Qle_condition. split.
  - apply (Qmult_le_r _ _ k); [exact Hk |].
    setoid_replace ((inject_Z (Qfloor (v * k)) / k - v) * k)%Q
      with (inject_Z (Qfloor (v * k)) - v * k)%Q by (field; lra).
    setoid_replace (- (1 / k) * k)%Q with (-1)%Q by (field; lra). lra.
  - apply (Qmult_le_r _ _ k); [exact Hk |].
    setoid_replace ((inject_Z (Qfloor (v * k)) / k - v) * k)%Q
      with (inject_Z (Qfloor (v * k)) - v * k)%Q by (field; lra).
    setoid_replace (1 / k * k)%Q with 1%Q by (field; lra). lra.
Qed.

(** Every clamping encoder returns a value of its field's width, whatever
    the input: U8P4 in [0, 255], U16P12 and U16P8 in [0, 65535], and the
    three bytes of U24P16 are bytes.  None of them wraps around. *)
Theorem encoders_in_range (v : Q) :
  0 <= BinaryCodec.encodeU8P4 v <= 255 /\
  0 <= BinaryCodec.encodeU16P12 v <= 65535 /\
  0 <= BinaryCodec.encodeU16P8 v <= 65535 /\
  Forall (fun b => 0 <= b < 256) (BinaryCodec.encodeU24P16 v).
Proof.
  split; [| split; [| split]].
  - exact (qBound_range (v * 16) 255 ltac:(lia)).
  - exact (qBound_range (v * 4096) 65535 ltac:(lia)).
  - exact (qBound_range (v * 256) 65535 ltac:(lia)).
  - unfold BinaryCodec.encodeU24P16. cbv zeta. rewrite !byte_land.
    repeat constructor; apply Z.mod_pos_bound; lia.
Qed.

(** The U16P8 codec: in range [0, 65535/256] the round trip is within
    1/256; a value at or below 0 encodes as 0 and one above the range as
    65535. *)
Theorem u16p8_roundtrip (v : Q) :
  ((0 <= v <= 65535 # 256)%Q ->
   (Qabs (BinaryCodec.decodeU16P8 (BinaryCodec.encodeU16P8 v) - v) <= 1 # 256)%Q) /\
  ((v <= 0)%Q -> BinaryCodec.encodeU16P8 v = 0) /\
  ((65535 # 256 < v)%Q -> BinaryCodec.encodeU16P8 v = 65535).
Proof.
  split; [| split].
  - intros [H0 H1]. unfold BinaryCodec.decodeU16P8, BinaryCodec.encodeU16P8.
    rewrite qBound_in by lra.
    exact (scaled_floor_close v 256 _ ltac:(reflexivity) eq_refl).
  - intros H. unfold BinaryCodec.encodeU16P8. apply qBound_nonpos; lra.
  - intros H. unfold BinaryCodec.encodeU16P8, Qt.qBoundQ, Qt.qMaxQ, Qt.qMinQ.
    destruct (Qlt_le_dec 65535 (v * 256)) as [_ | Hn]; [| lra].
    reflexivity.
Qed.

Lemma u16p8_roundtrip_witness :
  (Qabs (BinaryCodec.decodeU16P8 (BinaryCodec.encodeU16P8 25) - 25) <= 1 # 256)%Q /\
  BinaryCodec.encodeU16P8 (-5) = 0 /\ BinaryCodec.encodeU16P8 300 = 65535.
Proof.
  destruct (u16p8_roundtrip 25) as [A _].
  destruct (u16p8_roundtrip (-5)) as [_ [B _]].
  destruct (u16p8_roundtrip 300) as [_ [_ C]].
  split; [apply A; split; vm_compute; discriminate |].
  split; [apply B; vm_compute; discriminate | apply C; reflexivity].
Defined.

(** WATER_LEVELS: while the socket is connected, [sendWaterLevel] sends
    one two-byte notification; decoded (big-endian, U16P8) it is within
    1/256 of [waterLevel / 100 * 40 - 5] mm when that lies in the
    representable range, and [00 00] when it is at or below zero. *)
Theorem water_level_notification (s : Sim) :
  connected s = true ->
  exists bs,
    sendWaterLevel s = set_sent (sent s ++ [CmdNotify CHAR_WATER_LEVELS bs]) s /\
    List.length bs = 2%nat /\
    let waterMm := (waterLevel (vals s) / 100 * 40 - 5)%Q in
    ((0 <= waterMm <= 65535 # 256)%Q ->
     (Qabs (BinaryCodec.decodeU16P8
              (BinaryCodec.decodeShortBE (nth 0 bs 0%Z) (nth 1 bs 0%Z)) - waterMm)
        <= 1 # 256)%Q) /\
    ((waterMm <= 0)%Q -> bs = [0; 0]).
Proof.
  intros Hc.
  set (w := (waterLevel (vals s) / 100 * 40 - 5)%Q).
  exists (BinaryCodec.encodeShortBE (BinaryCodec.encodeU16P8 w)).
  split; [| split; [reflexivity |]].
  - unfold sendWaterLevel. rewrite Hc. cbv zeta. fold w.
    unfold sendNotification, sendCommand. rewrite Hc. reflexivity.
  - cbv zeta. fold w. split.
    + intros Hw. rewrite shortBE_decode_encode
        by (pose proof (qBound_range (w * 256) 65535 ltac:(lia)) as H;
            change (Qt.trunc (Qt.qBoundQ 0 (w * 256) (inject_Z 65535)))
              with (BinaryCodec.encodeU16P8 w) in H; lia).
      unfold BinaryCodec.decodeU16P8, BinaryCodec.encodeU16P8.
      rewrite qBound_in by lra.
      exact (scaled_floor_close w 256 _ ltac:(reflexivity) eq_refl).
    + intros Hw. unfold BinaryCodec.encodeU16P8.
      rewrite qBound_nonpos by lra. reflexivity.
Qed.

Lemma water_level_notification_witness :
  connected idle_ghc0 = true /\
  exists bs,
    sendWaterLevel idle_ghc0 =
      set_sent (sent idle_ghc0 ++ [CmdNotify CHAR_WATER_LEVELS bs]) idle_ghc0 /\
    List.length bs = 2%nat /\
    let waterMm := (waterLevel (vals idle_ghc0) / 100 * 40 - 5)%Q in
    ((0 <= waterMm <= 65535 # 256)%Q ->
     (Qabs (BinaryCodec.decodeU16P8
              (BinaryCodec.decodeShortBE (nth 0 bs 0%Z) (nth 1 bs 0%Z)) - waterMm)
        <= 1 # 256)%Q) /\
    ((waterMm <= 0)%Q -> bs = [0; 0]).
Proof. split; [reflexivity | apply (water_level_notification idle_ghc0); reflexivity]. Defined.

Lemma encodeU24P16_bytes (v : Q) :
  Forall (fun b => 0 <= b < 256) (BinaryCodec.encodeU24P16 v).
Proof.
  unfold BinaryCodec.encodeU24P16. cbv zeta. rewrite !byte_land.
  repeat constructor; apply Z.mod_pos_bound; lia.
Qed.

(** SHOT_SAMPLE: with the socket closed [sendShotSample] does nothing;
    while it is connected it sends exactly one notification, of 19 bytes,
    each in [0, 255]. *)
Theorem shot_sample_payload (s : Sim) :
  (connected s = false -> sendShotSample s = s) /\
  (connected s = true ->
   exists data,
     sendShotSample s = set_sent (sent s ++ [CmdNotify CHAR_SHOT_SAMPLE data]) s /\
     List.length data = 19%nat /\ Forall (fun b => 0 <= b < 256) data).
Proof.
  split.
  - intros Hc. unfold sendShotSample. rewrite Hc. reflexivity.
  - intros Hc. unfold sendShotSample. rewrite Hc. cbv zeta.
    cbn [negb]. unfold sendNotification, sendCommand. rewrite Hc.
    eexists. split; [reflexivity |].
    split; [unfold BinaryCodec.encodeShortBE, BinaryCodec.encodeU24P16;
            cbv zeta; reflexivity |].
    repeat (apply Forall_app; split; [first [apply encodeShortBE_bytes |
                                             apply encodeU24P16_bytes] |]).
    pose proof (qBound_range (setPressure (vals s) * 16) 255 ltac:(lia)) as P.
    pose proof (qBound_range (setFlow (vals s) * 16) 255 ltac:(lia)) as F.
    change (Qt.trunc (Qt.qBoundQ 0 (setPressure (vals s) * 16) (inject_Z 255)))
      with (BinaryCodec.encodeU8P4 (setPressure (vals s))) in P.
    change (Qt.trunc (Qt.qBoundQ 0 (setFlow (vals s) * 16) (inject_Z 255)))
      with (BinaryCodec.encodeU8P4 (setFlow (vals s))) in F.
    unfold Qt.to_uw. change (2 ^ 8) with 256.
    repeat apply Forall_cons; try apply Forall_nil; try lia;
      apply Z.mod_pos_bound; lia.
Qed.

Lemma shot_sample_payload_witness :
  connected idle_ghc0 = true /\
  exists data,
    sendShotSample idle_ghc0 =
      set_sent (sent idle_ghc0 ++ [CmdNotify CHAR_SHOT_SAMPLE data]) idle_ghc0 /\
    List.length data = 19%nat /\ Forall (fun b => 0 <= b < 256) data.
Proof.
  split; [reflexivity |].
  apply (proj2 (shot_sample_payload idle_ghc0)). reflexivity.
Defined.

(* ------------------------------------------------------------------------ *)
(** ** The profile assembler *)

Definition profile (s : Sim) := (profileHeader s, profileFrames s).

Lemma profile_sendCommand' c s : profile (sendCommand c s) = profile s.
Proof. unfold sendCommand. destruct (connected s); reflexivity. Qed.

Lemma profile_transitionToState st sub s :
  profile (transitionToState st sub s) = profile s.
Proof.
  unfold transitionToState, sendStateNotification, sendNotification, logTx.
  cbv zeta. unfold log. cbn [profileHeader profileFrames]. unfold profile.
  unfold sendCommand. destruct (connected (set_pair st sub s)); reflexivity.
Qed.

Lemma profile_handleRequestedState r s : profile (handleRequestedState r s) = profile s.
Proof.
  unfold handleRequestedState. cbv zeta.
  split_ifs; first [reflexivity | apply profile_transitionToState].
Qed.

Lemma profile_log_sendCommand cat m c x :
  profile (log cat m (sendCommand c x)) = profile x.
Proof. unfold sendCommand. destruct (connected x); reflexivity. Qed.

Lemma profile_handleMMRReadRequest v s : profile (handleMMRReadRequest v s) = profile s.
Proof.
  unfold handleMMRReadRequest, logTx, logRx, sendNotification.
  destruct (List.length v <? 4)%nat; [reflexivity |]. cbv zeta.
  rewrite profile_log_sendCommand. reflexivity.
Qed.

Lemma profile_nonprofile_write c v s :
  c <> CHAR_HEADER_WRITE -> c <> CHAR_FRAME_WRITE ->
  profile (handleCharacteristicWrite c v s) = profile s.
Proof.
  intros Hh Hf. unfold handleCharacteristicWrite.
  apply String.eqb_neq in Hh, Hf.
  destruct (String.eqb c CHAR_REQUESTED_STATE).
  { destruct (1 <=? List.length v)%nat; [| reflexivity].
    cbv zeta. rewrite profile_handleRequestedState. reflexivity. }
  destruct (String.eqb c CHAR_READ_FROM_MMR); [apply profile_handleMMRReadRequest |].
  destruct (String.eqb c CHAR_WRITE_TO_MMR).
  { unfold handleMMRWrite, logRx. destruct (List.length v <? 8)%nat; reflexivity. }
  rewrite Hh, Hf.
  destruct (String.eqb c CHAR_SHOT_SETTINGS).
  { unfold handleShotSettings, logRx. destruct (List.length v <? 9)%nat; reflexivity. }
  reflexivity.
Qed.

Lemma handleFrameWrite_shape v s :
  profileHeader (handleFrameWrite v s) = profileHeader s /\
  List.length (profileFrames (handleFrameWrite v s)) = List.length (profileFrames s).
Proof.
  unfold handleFrameWrite, logRx, log, set_frames, set_profile. cbv zeta.
  split_ifs; cbn [profileHeader profileFrames]; rewrite ?length_list_set; split; reflexivity.
Qed.

(** Only HEADER_WRITE changes the profile header or the number of frame
    slots: every other characteristic write leaves both as they were. *)
Theorem profile_shape_preserved (c : string) (v : list Z) (s : Sim) :
  c <> CHAR_HEADER_WRITE ->
  profileHeader (handleCharacteristicWrite c v s) = profileHeader s /\
  List.length (profileFrames (handleCharacteristicWrite c v s)) =
    List.length (profileFrames s).
Proof.
  intros Hh.
  destruct (string_dec c CHAR_FRAME_WRITE) as [-> | Hf].
  - exact (handleFrameWrite_shape v s).
  - pose proof (profile_nonprofile_write c v s Hh Hf) as E.
    unfold profile in E. injection E as E1 E2. rewrite E1, E2. split; reflexivity.
Qed.

Lemma profile_shape_preserved_witness :
  CHAR_FRAME_WRITE <> CHAR_HEADER_WRITE /\
  List.length (profileFrames (handleCharacteristicWrite CHAR_FRAME_WRITE
    [40; 1; 2; 0; 0; 0; 0; 0] idle_ghc0)) = List.length (profileFrames idle_ghc0).
Proof.
  split; [discriminate |].
  apply (profile_shape_preserved CHAR_FRAME_WRITE [40; 1; 2; 0; 0; 0; 0; 0] idle_ghc0).
  discriminate.
Defined.

(** HEADER_WRITE of at least five bytes: the header takes the five decoded
    fields, every previously uploaded frame is discarded in favour of
    [numFrames] default frames, and nothing is sent and no control state
    changes. *)
Theorem header_write_resets (v : list Z) (s : Sim) :
  (5 <= List.length v)%nat ->
  let s' := handleCharacteristicWrite CHAR_HEADER_WRITE v s in
  profileHeader s' =
    mkHeader (byte_at v 0) (byte_at v 1) (byte_at v 2)
      (BinaryCodec.decodeU8P4 (byte_at v 3)) (BinaryCodec.decodeU8P4 (byte_at v 4)) /\
  profileFrames s' = repeat default_frame (Z.to_nat (byte_at v 1)) /\
  control s' = control s /\ sent s' = sent s.
Proof.
  intros Hl s'. subst s'. unfold handleCharacteristicWrite.
  cbn [String.eqb Ascii.eqb Bool.eqb CHAR_REQUESTED_STATE CHAR_READ_FROM_MMR
       CHAR_WRITE_TO_MMR CHAR_HEADER_WRITE].
  unfold handleHeaderWrite.
  replace (List.length v <? 5)%nat with false by (symmetry; apply Nat.ltb_ge; exact Hl).
  repeat split; reflexivity.
Qed.

Lemma header_write_resets_witness :
  (5 <= List.length [1; 2; 0; 16; 32])%nat /\
  profileFrames (handleCharacteristicWrite CHAR_HEADER_WRITE [1; 2; 0; 16; 32] idle_ghc0)
    = [default_frame; default_frame].
Proof.
  split; [simpl; lia |].
  apply (header_write_resets [1; 2; 0; 16; 32] idle_ghc0). simpl; lia.
Defined.

(** FRAME_WRITE with wire index [32 + i]: when slot [i] exists it gets the
    limiter extension (the flag and the two U8P4 fields of bytes 1 and 2),
    every other field of it and every other slot are kept; when slot [i]
    does not exist the write is dropped without a log line. *)
Theorem frame_extension_write (v : list Z) (s : Sim) :
  (8 <= List.length v)%nat -> 32 <= byte_at v 0 ->
  let i := Z.to_nat (byte_at v 0 - 32) in
  let s' := handleCharacteristicWrite CHAR_FRAME_WRITE v s in
  ((i < List.length (profileFrames s))%nat ->
   profileHeader s' = profileHeader s /\
   List.length (profileFrames s') = List.length (profileFrames s) /\
   (forall j, j <> i ->
      nth j (profileFrames s') default_frame = nth j (profileFrames s) default_frame) /\
   let f := nth i (profileFrames s) default_frame in
   nth i (profileFrames s') default_frame =
     mkFrame (frameIndex f) (flags f) (setVal f) (temp f) (duration f)
       (triggerVal f) (maxVol f) true
       (BinaryCodec.decodeU8P4 (byte_at v 1)) (BinaryCodec.decodeU8P4 (byte_at v 2))) /\
  ((List.length (profileFrames s) <= i)%nat -> s' = s).
Proof.
  intros Hl H32 i s'. subst s'. unfold handleCharacteristicWrite.
  cbn [String.eqb Ascii.eqb Bool.eqb CHAR_REQUESTED_STATE CHAR_READ_FROM_MMR
       CHAR_WRITE_TO_MMR CHAR_HEADER_WRITE CHAR_FRAME_WRITE].
  unfold handleFrameWrite.
  replace (List.length v <? 8)%nat with false by (symmetry; apply Nat.ltb_ge; exact Hl).
  replace (32 <=? byte_at v 0) with true by (symmetry; apply Z.leb_le; exact H32).
  cbv zeta. fold i.
  pose proof (byte_at_range v 0) as Hr.
  split.
  - intros Hi.
    replace (byte_at v 0 - 32 <? Z.of_nat (List.length (profileFrames s))) with true.
    2:{ symmetry. apply Z.ltb_lt. unfold i in Hi. lia. }
    unfold logRx, log, set_frames, set_profile. cbn [profileHeader profileFrames].
    split; [reflexivity |]. split; [apply length_list_set |]. split.
    + intros j Hj. rewrite nth_list_set by exact Hi.
      replace (Nat.eqb i j) with false by (symmetry; apply Nat.eqb_neq; congruence).
      reflexivity.
    + rewrite nth_list_set by exact Hi. rewrite Nat.eqb_refl. reflexivity.
  - intros Hi.
    replace (byte_at v 0 - 32 <? Z.of_nat (List.length (profileFrames s))) with false.
    2:{ symmetry. apply Z.ltb_ge. unfold i in Hi. lia. }
    reflexivity.
Qed.

Lemma frame_extension_write_witness :
  (8 <= List.length [33; 32; 16; 0; 0; 0; 0; 0])%nat /\ 32 <= byte_at [33; 32; 16; 0; 0; 0; 0; 0] 0 /\
  handleCharacteristicWrite CHAR_FRAME_WRITE [33; 32; 16; 0; 0; 0; 0; 0] idle_ghc0 = idle_ghc0.
Proof.
  split; [simpl; lia |]. split; [vm_compute; discriminate |].
  apply (frame_extension_write [33; 32; 16; 0; 0; 0; 0; 0] idle_ghc0);
    [simpl; lia | vm_compute; discriminate | simpl; lia].
Defined.

(** FRAME_WRITE with a wire index below 32 that is the declared [numFrames]
    (the tail frame) or has no slot: the profile, the control state and the
    outbound traffic are unchanged, and one RX line is logged (tail frame,
    or index out of range). *)
Theorem frame_write_tail_or_out_of_range (v : list Z) (s : Sim) :
  (8 <= List.length v)%nat -> byte_at v 0 < 32 ->
  (byte_at v 0 = numFrames (profileHeader s) \/
   (List.length (profileFrames s) <= Z.to_nat (byte_at v 0))%nat) ->
  let s' := handleCharacteristicWrite CHAR_FRAME_WRITE v s in
  profile s' = profile s /\ control s' = control s /\ sent s' = sent s /\
  logv s' = logv s ++
    [(RX, if byte_at v 0 =? numFrames (profileHeader s) then MsgFrameTail
          else MsgFrameOutOfRange (byte_at v 0))].
Proof.
  intros Hl H32 Hc s'. subst s'. unfold handleCharacteristicWrite.
  cbn [String.eqb Ascii.eqb Bool.eqb CHAR_REQUESTED_STATE CHAR_READ_FROM_MMR
       CHAR_WRITE_TO_MMR CHAR_HEADER_WRITE CHAR_FRAME_WRITE].
  unfold handleFrameWrite.
  replace (List.length v <? 8)%nat with false by (symmetry; apply Nat.ltb_ge; exact Hl).
  replace (32 <=? byte_at v 0) with false by (symmetry; apply Z.leb_gt; exact H32).
  cbv zeta. pose proof (byte_at_range v 0) as Hr.
  destruct (byte_at v 0 =? numFrames (profileHeader s)) eqn:Ht.
  - repeat split; reflexivity.
  - apply Z.eqb_neq in Ht. destruct Hc as [Hc | Hc]; [contradiction |].
    replace (byte_at v 0 <? Z.of_nat (List.length (profileFrames s))) with false.
    2:{ symmetry. apply Z.ltb_ge. lia. }
    repeat split; reflexivity.
Qed.

Lemma frame_write_tail_or_out_of_range_witness :
  (8 <= List.length [0; 0; 0; 0; 0; 0; 0; 0])%nat /\
  byte_at [0; 0; 0; 0; 0; 0; 0; 0] 0 < 32 /\
  logv (handleCharacteristicWrite CHAR_FRAME_WRITE [0; 0; 0; 0; 0; 0; 0; 0] idle_ghc0) =
    [(RX, MsgFrameTail)].
Proof.
  split; [simpl; lia |]. split; [vm_compute; reflexivity |].
  apply (frame_write_tail_or_out_of_range [0; 0; 0; 0; 0; 0; 0; 0] idle_ghc0);
    [simpl; lia | vm_compute; reflexivity | left; reflexivity].
Defined.

(** The value ranges of the decoded frame fields. *)
Definition frame_ok (f : ProfileFrame) : Prop :=
  0 <= frameIndex f < 32 /\ 0 <= flags f <= 255 /\
  (0 <= setVal f <= 255 # 16)%Q /\ (0 <= temp f <= 255 # 2)%Q /\
  (0 <= duration f <= 127)%Q /\ (0 <= triggerVal f <= 255 # 16)%Q /\
  0 <= maxVol f <= 1023 /\
  (0 <= limiterValue f <= 255 # 16)%Q /\ (0 <= limiterRange f <= 255 # 16)%Q.

Lemma inject_byte (b : Z) : 0 <= b <= 255 -> (0 <= inject_Z b <= 255)%Q.
Proof.
  intros Hb. change 0%Q with (inject_Z 0). change 255%Q with (inject_Z 255).
  rewrite <- !Zle_Qle. exact Hb.
Qed.

Lemma decodeU8P4_range (b : Z) :
  0 <= b <= 255 -> (0 <= BinaryCodec.decodeU8P4 b <= 255 # 16)%Q.
Proof.
  intros Hb. pose proof (inject_byte b Hb). unfold BinaryCodec.decodeU8P4.
  split; [apply Qle_shift_div_l | apply Qle_shift_div_r]; try reflexivity; lra.
Qed.

Lemma decodeU8P1_range (b : Z) :
  0 <= b <= 255 -> (0 <= BinaryCodec.decodeU8P1 b <= 255 # 2)%Q.
Proof.
  intros Hb. pose proof (inject_byte b Hb). unfold BinaryCodec.decodeU8P1.
  split; [apply Qle_shift_div_l | apply Qle_shift_div_r]; try reflexivity; lra.
Qed.

Lemma decodeF8_1_7_range (b : Z) :
  0 <= b <= 255 -> (0 <= BinaryCodec.decodeF8_1_7 b <= 127)%Q.
Proof.
  intros Hb. unfold BinaryCodec.decodeF8_1_7.
  destruct (negb (Z.land b 128 =? 0)).
  - assert (E : Z.land b 127 = b mod 128)
      by (change 127 with (Z.ones 7); rewrite Z.land_ones by lia; reflexivity).
    rewrite E. pose proof (Z.mod_pos_bound b 128 ltac:(lia)) as H.
    assert (H' : 0 <= b mod 128 <= 127) by lia.
    change 0%Q with (inject_Z 0). change 127%Q with (inject_Z 127).
    rewrite <- !Zle_Qle. exact H'.
  - pose proof (inject_byte b Hb).
    split; [apply Qle_shift_div_l | apply Qle_shift_div_r]; try reflexivity; lra.
Qed.

Lemma decodeU10P0_range (b0 b1 : Z) : 0 <= BinaryCodec.decodeU10P0 b0 b1 <= 1023.
Proof.
  unfold BinaryCodec.decodeU10P0. change 1023 with (Z.ones 10).
  rewrite Z.land_ones by lia.
  pose proof (Z.mod_pos_bound (BinaryCodec.decodeShortBE b0 b1) (2 ^ 10) ltac:(lia)).
  change (2 ^ 10) with 1024 in *. change (Z.ones 10) with 1023. lia.
Qed.

Lemma Forall_list_set {A} (P : A -> Prop) (l : list A) i x :
  Forall P l -> P x -> Forall P (list_set l i x).
Proof.
  intros Hl Hx. revert i. induction Hl as [| y l Hy Hl IH]; intros [| i]; simpl.
  - constructor.
  - constructor.
  - constructor; assumption.
  - constructor; [exact Hy | apply IH].
Qed.

Lemma Forall_nth' {A} (P : A -> Prop) (l : list A) i d :
  Forall P l -> (i < List.length l)%nat -> P (nth i l d).
Proof.
  intros Hl Hi. rewrite Forall_forall in Hl. apply Hl. apply nth_In. exact Hi.
Qed.

Lemma default_frame_ok : frame_ok default_frame.
Proof.
  unfold frame_ok, default_frame; cbn.
  repeat split; try lia; try (vm_compute; discriminate).
Qed.

Lemma frames_ok_handleFrameWrite v s :
  Forall frame_ok (profileFrames s) ->
  Forall frame_ok (profileFrames (handleFrameWrite v s)).
Proof.
  intros Hs. unfold handleFrameWrite, logRx, log, set_frames, set_profile.
  pose proof (byte_at_range v 0) as R0. pose proof (byte_at_range v 1) as R1.
  pose proof (byte_at_range v 2) as R2. pose proof (byte_at_range v 3) as R3.
  pose proof (byte_at_range v 4) as R4. pose proof (byte_at_range v 5) as R5.
  cbv zeta.
  destruct (List.length v <? 8)%nat; [exact Hs |].
  destruct (32 <=? byte_at v 0) eqn:E32.
  - destruct (byte_at v 0 - 32 <? Z.of_nat (List.length (profileFrames s))) eqn:Ei;
      [| exact Hs].
    cbn [profileFrames]. apply Forall_list_set; [exact Hs |].
    apply Z.ltb_lt in Ei. apply Z.leb_le in E32.
    pose proof (Forall_nth' frame_ok _ (Z.to_nat (byte_at v 0 - 32)) default_frame Hs
                  ltac:(lia)) as Hf.
    destruct Hf as (F1 & F2 & F3 & F4 & F5 & F6 & F7 & _ & _).
    unfold frame_ok; cbn [frameIndex flags setVal temp duration triggerVal maxVol
                          limiterValue limiterRange].
    repeat split; try apply F1; try apply F2; try apply F3; try apply F4;
      try apply F5; try apply F6; try apply F7;
      try apply (decodeU8P4_range _ R1); try apply (decodeU8P4_range _ R2).
  - destruct (byte_at v 0 =? numFrames (profileHeader s)); [exact Hs |].
    destruct (byte_at v 0 <? Z.of_nat (List.length (profileFrames s))) eqn:Ei;
      [| exact Hs].
    cbn [profileFrames]. apply Forall_list_set; [exact Hs |].
    apply Z.ltb_lt in Ei. apply Z.leb_gt in E32.
    pose proof (Forall_nth' frame_ok _ (Z.to_nat (byte_at v 0)) default_frame Hs
                  ltac:(lia)) as Hf.
    destruct Hf as (_ & _ & _ & _ & _ & _ & _ & F8 & F9).
    unfold frame_ok; cbn [frameIndex flags setVal temp duration triggerVal maxVol
                          limiterValue limiterRange].
    repeat split; try lia; try apply F8; try apply F9;
      try apply (decodeU8P4_range _ R2); try apply (decodeU8P1_range _ R3);
      try apply (decodeF8_1_7_range _ R4); try apply (decodeU8P4_range _ R5);
      try apply decodeU10P0_range.
Qed.

(** Whatever characteristic writes arrive, every frame slot of the profile
    keeps its fields inside the ranges of their wire codecs: frame index
    below 32, flags a byte, setVal and triggerVal and the limiter fields in
    [0, 15.9375], temp in [0, 127.5], duration in [0, 127] s and maxVol in
    [0, 1023]. *)
Theorem frames_stay_in_range (c : string) (v : list Z) (s : Sim) :
  Forall frame_ok (profileFrames s) ->
  Forall frame_ok (profileFrames (handleCharacteristicWrite c v s)).
Proof.
  intros Hs.
  destruct (string_dec c CHAR_FRAME_WRITE) as [-> | Hf].
  { exact (frames_ok_handleFrameWrite v s Hs). }
  destruct (string_dec c CHAR_HEADER_WRITE) as [-> | Hh].
  { unfold handleCharacteristicWrite.
    cbn [String.eqb Ascii.eqb Bool.eqb CHAR_REQUESTED_STATE CHAR_READ_FROM_MMR
         CHAR_WRITE_TO_MMR CHAR_HEADER_WRITE].
    unfold handleHeaderWrite. destruct (List.length v <? 5)%nat; [exact Hs |].
    cbv zeta. cbn [profileFrames logRx log set_profile].
    apply Forall_forall. intros f Hin. apply repeat_spec in Hin. subst f.
    exact default_frame_ok. }
  pose proof (profile_nonprofile_write c v s Hh Hf) as E.
  unfold profile in E. injection E as _ E2. rewrite E2. exact Hs.
Qed.

Lemma frames_stay_in_range_witness :
  Forall frame_ok (profileFrames idle_ghc0) /\
  Forall frame_ok (profileFrames (handleCharacteristicWrite CHAR_HEADER_WRITE
                                    [1; 3; 0; 0; 0] idle_ghc0)).
Proof.
  split; [constructor |].
  apply frames_stay_in_range. constructor.
Defined.

(* ------------------------------------------------------------------------ *)
(** ** The framed control channel *)

Ltac unfold_handlers :=
  cbv beta iota zeta delta [handlePiEvent handleCharacteristicWrite
    handleRequestedState handleMMRReadRequest handleMMRWrite handleHeaderWrite
    handleFrameWrite handleShotSettings transitionToState sendStateNotification
    sendWaterLevel sendNotification sendCommand log logRx logTx logPi negb
    set_buffer set_pair set_profile set_frames set_vals set_timers set_sent
    connected tcpBuffer currentState currentSubState profileHeader profileFrames
    vals timers ghc sent logv].

(** The Pi event handlers neither read nor write the receive buffer. *)
Lemma handlePiEvent_set_buffer ev b s :
  handlePiEvent ev (set_buffer b s) = set_buffer b (handlePiEvent ev s).
Proof.
  destruct s as [[|] ? ? ? ? ? ? ? ? ? ?], ev; unfold_handlers; split_ifs; reflexivity.
Qed.

Lemma set_buffer_set_buffer b b' s : set_buffer b (set_buffer b' s) = set_buffer b s.
Proof. reflexivity. Qed.

Lemma set_buffer_same s : set_buffer (tcpBuffer s) s = s.
Proof. destruct s; reflexivity. Qed.

Lemma log_set_buffer c m b s : log c m (set_buffer b s) = set_buffer b (log c m s).
Proof. reflexivity. Qed.

Lemma split_line_app l b line rest :
  split_line l = Some (line, rest) -> split_line (l ++ b) = Some (line, rest ++ b).
Proof.
  revert line rest. induction l as [| x l IH]; intros line rest H; [discriminate |].
  simpl in *. destruct (x =? 10); [now inversion H |].
  destruct (split_line l) as [[ln r] |]; [| discriminate].
  injection H as <- <-. now rewrite (IH ln r eq_refl).
Qed.

Lemma split_line_length l line rest :
  split_line l = Some (line, rest) -> (List.length rest < List.length l)%nat.
Proof.
  revert line rest. induction l as [| x l IH]; intros line rest H; [discriminate |].
  simpl in *. destruct (x =? 10); [inversion H; subst; lia |].
  destruct (split_line l) as [[ln r] |]; [| discriminate].
  injection H as <- <-. specialize (IH ln r eq_refl). simpl. lia.
Qed.

Lemma split_line_Some l line rest :
  split_line l = Some (line, rest) -> l = line ++ 10 :: rest.
Proof.
  revert line rest. induction l as [| x l IH]; intros line rest H; [discriminate |].
  simpl in H. destruct (Z.eqb_spec x 10) as [E | E].
  - inversion H; subst. reflexivity.
  - destruct (split_line l) as [[ln r] |]; [| discriminate].
    injection H as <- <-. simpl. f_equal. now apply IH.
Qed.

Lemma split_line_None l : split_line l = None <-> ~ In 10 l.
Proof.
  induction l as [| x l IH]; simpl; [tauto |].
  destruct (Z.eqb_spec x 10) as [E | E].
  - subst. split; [discriminate | intros H; exfalso; auto].
  - destruct (split_line l) as [[ln r] |].
    + split; [discriminate |]. intros H. exfalso.
      destruct IH as [_ IH]. enough (Some (ln, r) = None) by discriminate.
      apply IH. intros Hi. auto.
    + split; [| reflexivity]. intros _ [Hx | Hi]; [congruence |].
      now apply (proj1 IH).
Qed.

(** One round of the [while] loop of [onDataReceived] after the line has been
    cut off: empty lines are skipped, unparsable lines logged, events handled. *)
Definition dispatch_line (fj : list Z -> option PiEvent) (line : list Z) (s : Sim) : Sim :=
  match line with
  | [] => s
  | _ :: _ =>
      match fj line with
      | None => log ERROR MsgJsonParseError s
      | Some ev => handlePiEvent ev s
      end
  end.

Lemma dispatch_set_buffer fj line b s :
  dispatch_line fj line (set_buffer b s) = set_buffer b (dispatch_line fj line s).
Proof.
  unfold dispatch_line. destruct line; [reflexivity |].
  destruct (fj _); [apply handlePiEvent_set_buffer | reflexivity].
Qed.

Lemma tcpBuffer_dispatch fj line s : tcpBuffer (dispatch_line fj line s) = tcpBuffer s.
Proof.
  rewrite <- (set_buffer_same s) at 1. rewrite dispatch_set_buffer. reflexivity.
Qed.

Lemma processLines_S fj f s line rest :
  split_line (tcpBuffer s) = Some (line, rest) ->
  processLines fj (S f) s = processLines fj f (dispatch_line fj line (set_buffer rest s)).
Proof.
  intros H. simpl. rewrite H. destruct line; [reflexivity |].
  cbn [dispatch_line]. destruct (fj _); reflexivity.
Qed.

Lemma processLines_None fj f s :
  split_line (tcpBuffer s) = None -> processLines fj f s = s.
Proof. intros H. destruct f; simpl; [| rewrite H]; reflexivity. Qed.

Lemma processLines_fuel fj f g s :
  (List.length (tcpBuffer s) <= f)%nat -> (f <= g)%nat ->
  processLines fj f s = processLines fj g s.
Proof.
  revert g s. induction f as [| f IH]; intros g s Hl Hg.
  - destruct (tcpBuffer s) eqn:E; [| simpl in Hl; lia].
    rewrite !processLines_None by (rewrite E; reflexivity). reflexivity.
  - destruct (split_line (tcpBuffer s)) as [[line rest] |] eqn:Hs.
    + destruct g as [| g]; [lia |].
      rewrite !(processLines_S fj _ s line rest Hs).
      pose proof (split_line_length _ _ _ Hs).
      apply IH; [rewrite tcpBuffer_dispatch; cbn [tcpBuffer set_buffer]; lia | lia].
    + rewrite !processLines_None by exact Hs. reflexivity.
Qed.

Lemma drain_app fj b : forall n t, List.length (tcpBuffer t) = n ->
  processLines fj (List.length (tcpBuffer t ++ b)) (set_buffer (tcpBuffer t ++ b) t) =
  let u := processLines fj (List.length (tcpBuffer t)) t in
  processLines fj (List.length (tcpBuffer u ++ b)) (set_buffer (tcpBuffer u ++ b) u).
Proof.
  intros n. induction n as [n IH] using Wf_nat.lt_wf_ind. intros t Hn. cbv zeta.
  destruct (split_line (tcpBuffer t)) as [[line rest] |] eqn:Hs.
  2: { rewrite (processLines_None fj _ t Hs). reflexivity. }
  pose proof (split_line_length _ _ _ Hs) as Hlt.
  set (t1 := dispatch_line fj line (set_buffer rest t)).
  assert (Hb1 : tcpBuffer t1 = rest).
  { unfold t1. rewrite tcpBuffer_dispatch. reflexivity. }
  assert (Hs' : split_line (tcpBuffer (set_buffer (tcpBuffer t ++ b) t)) =
                Some (line, rest ++ b)).
  { cbn [tcpBuffer set_buffer]. now apply split_line_app. }
  rewrite List.length_app.
  destruct (List.length (tcpBuffer t)) as [| m] eqn:Em; [lia |].
  cbn [Nat.add].
  rewrite (processLines_S fj _ _ _ _ Hs'), set_buffer_set_buffer.
  rewrite (processLines_S fj _ _ _ _ Hs). fold t1.
  replace (dispatch_line fj line (set_buffer (rest ++ b) t))
    with (set_buffer (tcpBuffer t1 ++ b) t1).
  2: { rewrite Hb1. unfold t1.
       rewrite <- dispatch_set_buffer, set_buffer_set_buffer. reflexivity. }
  rewrite <- (processLines_fuel fj (List.length (tcpBuffer t1 ++ b)) (m + List.length b)).
  2: { cbn [tcpBuffer set_buffer]. lia. }
  2: { rewrite List.length_app, Hb1. lia. }
  rewrite <- (processLines_fuel fj (List.length (tcpBuffer t1)) m t1)
    by (rewrite Hb1; lia).
  apply (IH (List.length rest)); [lia | now rewrite Hb1].
Qed.

Lemma drain_rest fj : forall f t, (List.length (tcpBuffer t) <= f)%nat ->
  (exists p, tcpBuffer t = p ++ tcpBuffer (processLines fj f t)) /\
  ~ In 10 (tcpBuffer (processLines fj f t)).
Proof.
  induction f as [| f IH]; intros t Hl.
  - destruct (tcpBuffer t) eqn:E; [| simpl in Hl; lia].
    rewrite processLines_None by (rewrite E; reflexivity).
    rewrite E. split; [exists []; reflexivity | simpl; tauto].
  - destruct (split_line (tcpBuffer t)) as [[line rest] |] eqn:Hs.
    + rewrite (processLines_S fj _ _ _ _ Hs).
      pose proof (split_line_length _ _ _ Hs).
      destruct (IH (dispatch_line fj line (set_buffer rest t))) as [[p Hp] Hn].
      { rewrite tcpBuffer_dispatch. cbn [tcpBuffer set_buffer]. lia. }
      split; [| exact Hn].
      exists (line ++ 10 :: p). rewrite (split_line_Some _ _ _ Hs).
      rewrite tcpBuffer_dispatch in Hp. cbn [tcpBuffer set_buffer] in Hp.
      rewrite Hp at 1. rewrite <- List.app_assoc. reflexivity.
    + rewrite processLines_None by exact Hs.
      split; [exists []; reflexivity | now apply split_line_None].
Qed.

(** Chunking: [onDataReceived] processes a byte stream the same way however
    TCP splits it; receiving [a] then [b] equals receiving [a ++ b]. *)
Theorem onDataReceived_chunks fj a b s :
  onDataReceived fj b (onDataReceived fj a s) = onDataReceived fj (a ++ b) s.
Proof.
  unfold onDataReceived. cbv zeta. cbn [tcpBuffer set_buffer].
  set (t := set_buffer (tcpBuffer s ++ a) s).
  replace (set_buffer (tcpBuffer s ++ a ++ b) s) with (set_buffer (tcpBuffer t ++ b) t)
    by (unfold t; cbn [tcpBuffer set_buffer]; now rewrite List.app_assoc).
  replace (tcpBuffer s ++ a ++ b) with (tcpBuffer t ++ b)
    by (unfold t; cbn [tcpBuffer set_buffer]; now rewrite List.app_assoc).
  replace (tcpBuffer s ++ a) with (tcpBuffer t) by reflexivity.
  symmetry. exact (drain_app fj b _ t eq_refl).
Qed.

(** After [onDataReceived] the receive buffer holds only the unterminated
    tail of the old buffer followed by the new bytes: a suffix of them that
    contains no newline. *)
Theorem onDataReceived_buffer_tail fj a s :
  (exists p, tcpBuffer s ++ a = p ++ tcpBuffer (onDataReceived fj a s)) /\
  ~ In 10 (tcpBuffer (onDataReceived fj a s)).
Proof.
  unfold onDataReceived. cbv zeta.
  exact (drain_rest fj _ (set_buffer (tcpBuffer s ++ a) s) (le_n _)).
Qed.

(* ------------------------------------------------------------------------ *)
(** ** What no input changes *)

(** The link flag and the three readings no code path assigns. *)
Definition frozen (s : Sim) :=
  (connected s, temperature (vals s), setTemp (vals s), waterLevel (vals s)).

(** [s'] agrees with [s] on [frozen], and nothing was sent unless linked. *)
Definition keeps (s s' : Sim) : Prop :=
  frozen s' = frozen s /\ (connected s = false -> sent s' = sent s).

Lemma keeps_refl s : keeps s s.
Proof. split; reflexivity. Qed.

Lemma keeps_trans s1 s2 s3 : keeps s1 s2 -> keeps s2 s3 -> keeps s1 s3.
Proof.
  unfold keeps, frozen. intros [E1 S1] [E2 S2]. split; [congruence |].
  intros Hc. injection E1 as Hc1 _ _ _. rewrite S2, S1 by congruence. reflexivity.
Qed.

Lemma keeps_handlePiEvent ev s : keeps s (handlePiEvent ev s).
Proof.
  destruct s as [[|] ? ? ? ? ? ? ? ? ? ?], ev; unfold keeps, frozen; unfold_handlers;
    split_ifs; (split; [reflexivity | first [reflexivity | discriminate | intros; reflexivity]]).
Qed.

Ltac unfold_ops :=
  cbv beta iota zeta delta [onPowerClicked toggleOperation startOperation
    stopOperation onPhaseTimeout onShotTimerTick updateSimulationValues
    sendShotSample reset_run_values clear_run_values start_phaseTimer
    stop_phaseTimer start_shotTimer stop_shotTimer onEspressoClicked
    onSteamClicked onHotWaterClicked onFlushClicked onStopClicked
    pressure flow temperature setTemp setPressure setFlow shotTimer_s
    waterLevel steamTemp frameNumber shotTimer_on phaseTimer waterTimer_on andb] in *;
  unfold_handlers.

(** Case on the innermost conditions first, so that a condition computed
    from another [if] is decided by the cases of that one. *)
Ltac split_inner_ifs :=
  repeat match goal with
         | |- context [if ?c then _ else _] =>
             lazymatch c with
             | context [if _ then _ else _] => fail
             | _ => destruct c
             end
         end.

Ltac crush_keeps :=
  unfold keeps, frozen; unfold_ops; split_inner_ifs;
  (split; [reflexivity | first [reflexivity | discriminate | intros; reflexivity]]).

Lemma keeps_stopOperation s : keeps s (stopOperation s).
Proof. destruct s as [[|] ? ? ? ? ? ? ? ? ? ?]; crush_keeps. Qed.

Lemma keeps_onPowerClicked s : keeps s (onPowerClicked s).
Proof. destruct s as [[|] ? ? ? ? ? ? ? ? ? ?]; crush_keeps. Qed.

Lemma keeps_toggleOperation st s : keeps s (toggleOperation st s).
Proof. destruct s as [[|] ? ? ? ? ? ? ? ? ? ?]; crush_keeps. Qed.

Lemma keeps_fire qSin e s s' : fire qSin e s = Some s' -> keeps s s'.
Proof.
  intros H. destruct e; unfold fire in H;
    [destruct (shotTimer_on (timers s)) | destruct (phaseTimer (timers s))
    | destruct (waterTimer_on (timers s))]; try discriminate;
    injection H as <-; destruct s as [[|] ? ? ? ? ? ? ? ? ? ?]; crush_keeps.
Qed.

Lemma keeps_dispatch_line fj line s : keeps s (dispatch_line fj line s).
Proof.
  unfold dispatch_line. destruct line; [apply keeps_refl |].
  destruct (fj _); [apply keeps_handlePiEvent | split; reflexivity].
Qed.

Lemma keeps_processLines fj f s : keeps s (processLines fj f s).
Proof.
  revert s. induction f as [| f IH]; intros s; [apply keeps_refl |].
  destruct (split_line (tcpBuffer s)) as [[line rest] |] eqn:Hs.
  - rewrite (processLines_S fj f s line rest Hs).
    apply (keeps_trans _ (dispatch_line fj line (set_buffer rest s))); [| apply IH].
    apply (keeps_trans _ (set_buffer rest s)); [split; reflexivity |].
    apply keeps_dispatch_line.
  - rewrite processLines_None by exact Hs. apply keeps_refl.
Qed.

Lemma keeps_step fj qSin i s : keeps s (step fj qSin i s).
Proof.
  destruct i; cbn [step].
  - unfold onDataReceived. cbv zeta.
    apply (keeps_trans _ (set_buffer (tcpBuffer s ++ bytes) s));
      [split; reflexivity | apply keeps_processLines].
  - destruct (fire qSin e s) eqn:E; [exact (keeps_fire _ _ _ _ E) | apply keeps_refl].
  - apply keeps_onPowerClicked.
  - apply keeps_toggleOperation.
  - apply keeps_toggleOperation.
  - apply keeps_toggleOperation.
  - apply keeps_toggleOperation.
  - apply keeps_stopOperation.
Qed.

Lemma keeps_run fj qSin is s : keeps s (run fj qSin is s).
Proof.
  revert s. induction is as [| i r IH]; intros s; [apply keeps_refl |].
  cbn [run]. exact (keeps_trans _ _ _ (keeps_step fj qSin i s) (IH _)).
Qed.

(** No input of the Controller (control-channel data, timer expiries, the
    operation and power buttons) changes the link flag or the temperature,
    set temperature and water level readings, which no code path assigns;
    and while the Controller is not linked to the Agent no command is ever
    written. *)
Theorem controller_run_never_changes fj qSin is s :
  let s' := run fj qSin is s in
  connected s' = connected s /\
  temperature (vals s') = temperature (vals s) /\
  setTemp (vals s') = setTemp (vals s) /\
  waterLevel (vals s') = waterLevel (vals s) /\
  (connected s = false -> sent s' = sent s).
Proof.
  cbv zeta. destruct (keeps_run fj qSin is s) as [E Hs]. unfold frozen in E.
  injection E as E1 E2 E3 E4. repeat split; assumption.
Qed.

(* ------------------------------------------------------------------------ *)
(** ** The single-phase operations *)

(** Steam, hot water and flush: the pair, the armed interval and the shot
    timer after [k] phase timeouts. *)
Definition single_at (st : State) (sub : SubState) (ms : Z) (k : nat) (s : Sim) : Prop :=
  (currentState s, currentSubState s, phaseTimer (timers s)) =
    nth k [(st, sub, Some ms)] (Idle, Ready, None) /\
  shotTimer_on (timers s) = (k =? 0)%nat /\ (k <= 1)%nat.

Definition single_ops : list (State * SubState * Z) :=
  [(Steam, Steaming, 45000); (HotWater, Pouring, 30000); (HotWaterRinse, Pouring, 10000)].

Lemma sched_parts x a b t :
  sched x = (a, b, t) -> currentState x = a /\ currentSubState x = b /\ timers x = t.
Proof. unfold sched. intros H. injection H as -> -> ->. auto. Qed.

Lemma single_ops_state st sub ms :
  In (st, sub, ms) single_ops ->
  st <> Espresso /\ st <> Idle /\ st <> Sleep /\
  forall s, currentState s = st -> onPhaseTimeout s = stopOperation s.
Proof.
  unfold single_ops. intros [E | [E | [E | []]]]; injection E as <- <- <-;
    (split; [discriminate | split; [discriminate | split; [discriminate |]]]);
    intros s Hs; unfold onPhaseTimeout; rewrite Hs; reflexivity.
Qed.

Lemma single_step q st sub ms k s e s' :
  In (st, sub, ms) single_ops ->
  single_at st sub ms k s -> fire q e s = Some s' ->
  (e = PhaseTimeout /\ single_at st sub ms (S k) s') \/
  (e <> PhaseTimeout /\ single_at st sub ms k s').
Proof.
  intros Hin Hl Hf. destruct (single_ops_state _ _ _ Hin) as (_ & _ & _ & Hto).
  destruct e; [right | left | right].
  - split; [discriminate |]. simpl in Hf.
    destruct (shotTimer_on (timers s)); [| discriminate].
    injection Hf as <-. unfold single_at.
    pose proof (sched_onShotTimerTick q s) as E. unfold sched in E.
    injection E as -> -> ->. exact Hl.
  - split; [reflexivity |]. simpl in Hf.
    destruct Hl as (Hv & Hshot & Hk).
    destruct (phaseTimer (timers s)) as [m |] eqn:Ep; [| discriminate].
    injection Hf as <-.
    destruct k as [| k]; [| destruct k; simpl in Hv; [discriminate | lia]].
    simpl in Hv. injection Hv as Hst Hsub Hm.
    rewrite Hto by exact Hst. unfold single_at.
    destruct (sched_parts _ _ _ _ (sched_stopOperation (stop_phaseTimer s)))
      as (-> & -> & ->).
    split; [reflexivity | split; [reflexivity | lia]].
  - split; [discriminate |]. simpl in Hf.
    destruct (waterTimer_on (timers s)); [| discriminate].
    injection Hf as <-. unfold single_at.
    pose proof (sched_sendWaterLevel s) as E. unfold sched in E.
    injection E as -> -> ->. exact Hl.
Qed.

Lemma single_run q st sub ms evs k s s' :
  In (st, sub, ms) single_ops ->
  single_at st sub ms k s -> run_timers q evs s = Some s' ->
  single_at st sub ms (k + phase_count evs) s'.
Proof.
  intros Hin. revert k s. induction evs as [| e evs IH]; intros k s Hl Hr.
  - simpl in Hr. injection Hr as <-. rewrite Nat.add_0_r. exact Hl.
  - simpl in Hr. destruct (fire q e s) as [t |] eqn:Hf; [| discriminate].
    destruct (single_step q st sub ms k s e t Hin Hl Hf) as [[-> Ht] | [Hne Ht]].
    + simpl. rewrite <- Nat.add_succ_comm. exact (IH (S k) t Ht Hr).
    + replace (phase_count (e :: evs)) with (phase_count evs)
        by (destruct e; [reflexivity | contradiction | reflexivity]).
      exact (IH k t Ht Hr).
Qed.

Lemma single_start st sub ms s :
  In (st, sub, ms) single_ops ->
  currentState s = Idle \/ currentState s = Sleep ->
  single_at st sub ms 0 (toggleOperation st s).
Proof.
  intros Hin Hs. destruct (single_ops_state _ _ _ Hin) as (Hne & HnI & HnS & _).
  unfold toggleOperation.
  replace (currentState s =? st) with false
    by (symmetry; apply Z.eqb_neq; destruct Hs as [-> | ->]; auto).
  unfold startOperation.
  replace (negb (currentState s =? Idle) && negb (currentState s =? Sleep)) with false
    by (destruct Hs as [-> | ->]; reflexivity).
  cbv zeta. set (s0 := set_vals (reset_run_values (vals s)) s). clearbody s0.
  assert (G : forall x, sched x = (st, sub, mkTimers (shotTimer_on (timers s0)) (Some ms)
                                           (waterTimer_on (timers s0))) ->
              single_at st sub ms 0 (start_shotTimer x)).
  { intros x Hx. destruct (sched_parts _ _ _ _ Hx) as (H1 & H2 & H3).
    unfold single_at, start_shotTimer, set_timers.
    cbn [currentState currentSubState timers phaseTimer shotTimer_on].
    rewrite H1, H2, H3. split; [reflexivity | split; [reflexivity | lia]]. }
  unfold single_ops in Hin.
  destruct Hin as [E | [E | [E | []]]]; injection E as <- <- <-; apply G;
    apply sched_start_phaseTimer_transition.
Qed.

(** Steam, hot water and flush, started by their button from Idle or Sleep,
    run one phase: the pair is (Steam, Steaming), (HotWater, Pouring) or
    (HotWaterRinse, Pouring) with the phase timer armed for 45000, 30000 or
    10000 ms and the shot timer running, whatever shot-sample and water-level
    ticks occur; the single phase timeout stops the operation at (Idle, Ready)
    with both timers stopped, after which the phase timer never fires again. *)
Theorem single_phase_operations (qSin : Q -> Q) st sub ms s evs s' :
  In (st, sub, ms) single_ops ->
  (currentState s = Idle \/ currentState s = Sleep) ->
  run_timers qSin evs (toggleOperation st s) = Some s' ->
  (phase_count evs <= 1)%nat /\
  (currentState s', currentSubState s', phaseTimer (timers s')) =
    nth (phase_count evs) [(st, sub, Some ms)] (Idle, Ready, None) /\
  shotTimer_on (timers s') = (phase_count evs =? 0)%nat.
Proof.
  intros Hin Hs Hr.
  destruct (single_run qSin st sub ms evs 0 _ s' Hin (single_start st sub ms s Hin Hs) Hr)
    as (Hv & Hshot & Hk).
  simpl in Hv, Hshot, Hk. split; [exact Hk | split; [exact Hv | exact Hshot]].
Qed.

Lemma single_phase_operations_witness :
  (In (Steam, Steaming, 45000) single_ops /\
   (currentState idle_ghc0 = Idle \/ currentState idle_ghc0 = Sleep) /\
   run_timers (fun _ => 0%Q) [ShotTick; ShotTick; PhaseTimeout]
     (toggleOperation Steam idle_ghc0) <> None) /\
  (forall s', run_timers (fun _ => 0%Q) [ShotTick; ShotTick; PhaseTimeout]
                (toggleOperation Steam idle_ghc0) = Some s' ->
   (currentState s', currentSubState s', phaseTimer (timers s')) = (Idle, Ready, None) /\
   shotTimer_on (timers s') = false).
Proof.
  split; [split; [left; reflexivity | split; [left; reflexivity | vm_compute; discriminate]] |].
  intros s' Hr.
  destruct (single_phase_operations (fun _ => 0%Q) Steam Steaming 45000 idle_ghc0 _ s'
              (or_introl eq_refl) (or_introl eq_refl) Hr) as (_ & Hv & Hs).
  split; [exact Hv | exact Hs].
Defined.

(* ------------------------------------------------------------------------ *)
(** ** The operator buttons *)

Lemma stopOperation_parts s :
  let s' := stopOperation s in
  currentState s' = Idle /\ currentSubState s' = Ready /\
  timers s' = mkTimers false None (waterTimer_on (timers s)) /\
  vals s' = clear_run_values (vals s) /\ connected s' = connected s.
Proof.
  cbv zeta. destruct (sched_parts _ _ _ _ (sched_stopOperation s)) as (H1 & H2 & H3).
  unfold stopOperation.
  destruct (control_transitionToState Idle Ready
              (set_vals (clear_run_values (vals (stop_phaseTimer (stop_shotTimer s))))
                 (stop_phaseTimer (stop_shotTimer s)))) as (_ & _ & Hc & Hv & _).
  unfold stopOperation in H1, H2, H3. rewrite H1, H2, H3, Hv, Hc. auto.
Qed.

Lemma sent_stopOperation s :
  connected s = true ->
  sent (stopOperation s) = sent s ++ [CmdNotify CHAR_STATE_INFO [Idle; Ready]].
Proof. intros Hc. unfold stopOperation. rewrite sent_transitionToState; auto. Qed.

(** An operation button pressed while another operation runs is ignored:
    [toggleOperation] only stops its own operation and [startOperation]
    returns at once unless the machine is Idle or asleep. *)
Theorem operation_button_ignored_while_busy st s :
  currentState s <> Idle -> currentState s <> Sleep -> currentState s <> st ->
  toggleOperation st s = s.
Proof.
  intros HI HS Hst. unfold toggleOperation, startOperation.
  apply Z.eqb_neq in HI, HS, Hst. rewrite Hst, HI, HS. reflexivity.
Qed.

Lemma operation_button_ignored_while_busy_witness :
  let s := toggleOperation Espresso idle_ghc0 in
  (currentState s <> Idle /\ currentState s <> Sleep /\ currentState s <> Steam) /\
  toggleOperation Steam s = s.
Proof.
  cbv zeta.
  assert (H : currentState (toggleOperation Espresso idle_ghc0) <> Idle /\
              currentState (toggleOperation Espresso idle_ghc0) <> Sleep /\
              currentState (toggleOperation Espresso idle_ghc0) <> Steam)
    by (vm_compute; repeat split; discriminate).
  destruct H as (H1 & H2 & H3).
  split; [auto | exact (operation_button_ignored_while_busy Steam _ H1 H2 H3)].
Defined.

Lemma toggle_same st s : currentState s = st -> toggleOperation st s = stopOperation s.
Proof. intros E. unfold toggleOperation. rewrite E, Z.eqb_refl. reflexivity. Qed.

Lemma toggle_start_state st s :
  In st [Espresso; Steam; HotWater; HotWaterRinse] ->
  (currentState s = Idle \/ currentState s = Sleep) ->
  currentState (toggleOperation st s) = st.
Proof.
  intros Hin Hs. destruct Hin as [<- | Hin].
  - unfold toggleOperation.
    replace (currentState s =? Espresso) with false
      by (destruct Hs as [-> | ->]; reflexivity).
    destruct (ladder_start s Hs) as (Hv & _).
    unfold sched in Hv. injection Hv as E _ _. exact E.
  - assert (exists sub ms, In (st, sub, ms) single_ops) as (sub & ms & Hop).
    { destruct Hin as [<- | [<- | [<- | []]]]; do 2 eexists;
        unfold single_ops; simpl; eauto. }
    destruct (single_start st sub ms s Hop Hs) as (Hv & _).
    injection Hv as E _ _. exact E.
Qed.

(** Pressing an operation button twice from Idle or Sleep starts that
    operation and stops it again: the machine ends in (Idle, Ready) with the
    shot and phase timers stopped and pressure and flow back at zero. *)
Theorem operation_button_twice_stops st s :
  In st [Espresso; Steam; HotWater; HotWaterRinse] ->
  (currentState s = Idle \/ currentState s = Sleep) ->
  let s2 := toggleOperation st (toggleOperation st s) in
  currentState s2 = Idle /\ currentSubState s2 = Ready /\
  shotTimer_on (timers s2) = false /\ phaseTimer (timers s2) = None /\
  pressure (vals s2) = 0%Q /\ flow (vals s2) = 0%Q.
Proof.
  intros Hin Hs. cbv zeta.
  pose proof (toggle_start_state st s Hin Hs) as E.
  rewrite (toggle_same st (toggleOperation st s) E).
  destruct (stopOperation_parts (toggleOperation st s)) as (H1 & H2 & H3 & H4 & _).
  rewrite H1, H2, H3, H4. repeat split.
Qed.

Lemma operation_button_twice_stops_witness :
  (In HotWater [Espresso; Steam; HotWater; HotWaterRinse] /\
   (currentState idle_ghc0 = Idle \/ currentState idle_ghc0 = Sleep)) /\
  currentState (toggleOperation HotWater (toggleOperation HotWater idle_ghc0)) = Idle.
Proof.
  assert (Hin : In HotWater [Espresso; Steam; HotWater; HotWaterRinse])
    by (simpl; auto).
  assert (Hs : currentState idle_ghc0 = Idle \/ currentState idle_ghc0 = Sleep)
    by (left; reflexivity).
  split; [split; assumption |].
  exact (proj1 (operation_button_twice_stops HotWater idle_ghc0 Hin Hs)).
Defined.

(** The power button wakes a sleeping machine to (Idle, Ready), leaving the
    timers and readings alone and notifying the client once. *)
Theorem power_button_wakes s :
  currentState s = Sleep ->
  let s' := onPowerClicked s in
  currentState s' = Idle /\ currentSubState s' = Ready /\
  timers s' = timers s /\ vals s' = vals s /\
  (connected s = true ->
   sent s' = sent s ++ [CmdNotify CHAR_STATE_INFO [Idle; Ready]]).
Proof.
  intros Hs. cbv zeta. unfold onPowerClicked. rewrite Hs. cbn [Z.eqb Sleep].
  destruct (control_transitionToState Idle Ready s) as (H1 & H2 & _ & H4 & H5 & _).
  rewrite H1, H2, H4, H5. repeat split. apply sent_transitionToState.
Qed.

Lemma power_button_wakes_witness :
  let s := onPowerClicked idle_ghc0 in
  currentState s = Sleep /\ currentState (onPowerClicked s) = Idle.
Proof.
  cbv zeta.
  assert (H : currentState (onPowerClicked idle_ghc0) = Sleep) by reflexivity.
  split; [exact H | exact (proj1 (power_button_wakes _ H))].
Defined.

(** In any other state the power button first stops the running operation,
    then sends the machine to (Sleep, Ready): the shot and phase timers are
    stopped, pressure, flow, steam temperature and frame number are cleared,
    and a linked client is told (Idle, Ready) and then (Sleep, Ready). *)
Theorem power_button_sleeps s :
  currentState s <> Sleep ->
  let s' := onPowerClicked s in
  currentState s' = Sleep /\ currentSubState s' = Ready /\
  timers s' = mkTimers false None (waterTimer_on (timers s)) /\
  vals s' = clear_run_values (vals s) /\
  (connected s = true ->
   sent s' = sent s ++ [CmdNotify CHAR_STATE_INFO [Idle; Ready];
                        CmdNotify CHAR_STATE_INFO [Sleep; Ready]]).
Proof.
  intros Hs. cbv zeta. unfold onPowerClicked.
  apply Z.eqb_neq in Hs. rewrite Hs.
  destruct (stopOperation_parts s) as (_ & _ & T & V & C).
  destruct (control_transitionToState Sleep Ready (stopOperation s))
    as (H1 & H2 & H3 & H4 & H5 & _).
  rewrite H1, H2, H4, H5, T, V. repeat split.
  intros Hc. rewrite sent_transitionToState by (rewrite C; exact Hc).
  rewrite sent_stopOperation by exact Hc. rewrite <- List.app_assoc. reflexivity.
Qed.

Lemma power_button_sleeps_witness :
  let s := toggleOperation Steam idle_ghc0 in
  currentState s <> Sleep /\ currentState (onPowerClicked s) = Sleep.
Proof.
  cbv zeta.
  assert (H : currentState (toggleOperation Steam idle_ghc0) <> Sleep)
    by (vm_compute; discriminate).
  split; [exact H | exact (proj1 (power_button_sleeps _ H))].
Defined.

(* ------------------------------------------------------------------------ *)
(** ** The telemetry values during an operation *)







(* ------------------------------------------------------------------------ *)
(** ** The standalone Radio Agent *)

Lemma daemon_no_service_step i a :
  AgentModel.serviceCreated a = false -> AgentModel.advertising a = false ->
  ~ In AgentModel.OAdvertising (AgentModel.toWindows a) ->
  let a' := Daemon.step i a in
  AgentModel.serviceCreated a' = false /\ AgentModel.advertising a' = false /\
  ~ In AgentModel.OAdvertising (AgentModel.toWindows a').
Proof.
  destruct a as [tcp svc adv cen out]. cbn. intros -> -> Hn.
  destruct i; cbn; unfold AgentModel.sendToWindows; cbn;
    repeat (destruct tcp); cbn; (split; [reflexivity | split; [reflexivity |]]);
    rewrite ?List.in_app_iff; cbn; intuition discriminate.
Qed.

(** When the BLE service could not be created the standalone Agent never
    advertises and never reports advertising to the Controller, whatever
    TCP, BLE and command signals arrive: [startAdvertising] returns at once
    without a service. *)
Theorem daemon_without_service_never_advertises (is : list AgentModel.Input) :
  let a := AgentModel.run Daemon.step is (AgentModel.boot false) in
  AgentModel.advertising a = false /\
  ~ In AgentModel.OAdvertising (AgentModel.toWindows a).
Proof.
  cbv zeta.
  assert (G : forall a, AgentModel.serviceCreated a = false ->
                AgentModel.advertising a = false ->
                ~ In AgentModel.OAdvertising (AgentModel.toWindows a) ->
                AgentModel.advertising (AgentModel.run Daemon.step is a) = false /\
                ~ In AgentModel.OAdvertising
                    (AgentModel.toWindows (AgentModel.run Daemon.step is a))).
  { induction is as [| i r IH]; intros a H1 H2 H3; [auto |].
    cbn [AgentModel.run].
    destruct (daemon_no_service_step i a H1 H2 H3) as (H1' & H2' & H3').
    exact (IH _ H1' H2' H3'). }
  apply G; [reflexivity | reflexivity | cbn; tauto].
Qed.

(** The signals the Agent receives from its peers once it runs: TCP
    connections of the Controller and BLE connections of a central. *)
Definition link_signal (i : AgentModel.Input) : bool :=
  match i with
  | AgentModel.TcpNewConnection | AgentModel.TcpDisconnected
  | AgentModel.BleConnected | AgentModel.BleDisconnected => true
  | _ => false
  end.

Lemma daemon_link_step i a :
  link_signal i = true -> AgentModel.serviceCreated a = true ->
  AgentModel.advertising a = negb (AgentModel.bleCentral a) ->
  AgentModel.serviceCreated (Daemon.step i a) = true /\
  AgentModel.advertising (Daemon.step i a) =
    negb (AgentModel.bleCentral (Daemon.step i a)).
Proof.
  destruct a as [tcp svc adv cen out]. cbn. intros Hi -> Hadv.
  destruct i; try discriminate; cbn; unfold AgentModel.sendToWindows;
    destruct tcp; cbn; auto.
Qed.

(** With its BLE service created, the standalone Agent advertises exactly
    when no central is connected, from the start-up advertising timer on and
    through any sequence of Controller (TCP) and central (BLE) connections
    and disconnections: it stops on a central's connection, restarts on its
    disconnection, and the Controller's comings and goings do not touch it. *)
Theorem daemon_advertises_iff_no_central (is : list AgentModel.Input) :
  forallb link_signal is = true ->
  let a := AgentModel.run Daemon.step is
             (Daemon.step AgentModel.BootTimer (AgentModel.boot true)) in
  AgentModel.advertising a = negb (AgentModel.bleCentral a).
Proof.
  intros Hl. cbv zeta.
  assert (G : forall a, AgentModel.serviceCreated a = true ->
                AgentModel.advertising a = negb (AgentModel.bleCentral a) ->
                AgentModel.advertising (AgentModel.run Daemon.step is a) =
                negb (AgentModel.bleCentral (AgentModel.run Daemon.step is a))).
  { induction is as [| i r IH]; intros a H1 H2; [exact H2 |].
    cbn [forallb] in Hl. apply andb_prop in Hl as [Hi Hr].
    cbn [AgentModel.run].
    destruct (daemon_link_step i a Hi H1 H2) as (H1' & H2').
    exact (IH Hr _ H1' H2'). }
  apply G; reflexivity.
Qed.

Lemma daemon_advertises_iff_no_central_witness :
  let is := [AgentModel.TcpNewConnection; AgentModel.BleConnected;
             AgentModel.TcpDisconnected; AgentModel.BleDisconnected;
             AgentModel.BleConnected] in
  forallb link_signal is = true /\
  AgentModel.advertising
    (AgentModel.run Daemon.step is
       (Daemon.step AgentModel.BootTimer (AgentModel.boot true))) = false.
Proof.
  intros is. assert (H : forallb link_signal is = true) by reflexivity.
  split; [exact H |].
  rewrite (daemon_advertises_iff_no_central is H). reflexivity.
Defined.

(* ------------------------------------------------------------------------ *)
(** ** The phase timer and the shot-sample timer *)

Definition timers_ok (s : Sim) : Prop :=
  phaseTimer (timers s) = None \/ shotTimer_on (timers s) = true.

Ltac crush_timers :=
  unfold timers_ok in *; unfold_ops; split_inner_ifs; cbn in *; intuition congruence.

Lemma timers_ok_handlePiEvent ev s : timers_ok s -> timers_ok (handlePiEvent ev s).
Proof.
  destruct s as [[|] ? ? ? ? ? ? [[|] ? ?] ? ? ?], ev; crush_timers.
Qed.

Lemma timers_ok_onPowerClicked s : timers_ok s -> timers_ok (onPowerClicked s).
Proof. destruct s as [[|] ? ? ? ? ? ? [[|] ? ?] ? ? ?]; crush_timers. Qed.

Lemma timers_ok_toggleOperation st s : timers_ok s -> timers_ok (toggleOperation st s).
Proof. destruct s as [[|] ? ? ? ? ? ? [[|] ? ?] ? ? ?]; crush_timers. Qed.

Lemma timers_ok_stopOperation s : timers_ok s -> timers_ok (stopOperation s).
Proof. destruct s as [[|] ? ? ? ? ? ? [[|] ? ?] ? ? ?]; crush_timers. Qed.

Lemma timers_ok_fire qSin e s s' : timers_ok s -> fire qSin e s = Some s' -> timers_ok s'.
Proof.
  intros Hok H. destruct e; unfold fire in H;
    [destruct (shotTimer_on (timers s)) | destruct (phaseTimer (timers s)) eqn:Ep
    | destruct (waterTimer_on (timers s))]; try discriminate;
    injection H as <-; revert Hok; try revert Ep;
    destruct s as [[|] ? ? ? ? ? ? [[|] ? ?] ? ? ?]; cbn [timers phaseTimer];
    intros; crush_timers.
Qed.

Lemma timers_ok_processLines fj f s : timers_ok s -> timers_ok (processLines fj f s).
Proof.
  revert s. induction f as [| f IH]; intros s Hok; [exact Hok |].
  destruct (split_line (tcpBuffer s)) as [[line rest] |] eqn:Hs.
  - rewrite (processLines_S fj f s line rest Hs). apply IH.
    unfold dispatch_line. destruct line; [exact Hok |].
    destruct (fj _); [apply timers_ok_handlePiEvent; exact Hok | exact Hok].
  - rewrite processLines_None by exact Hs. exact Hok.
Qed.

Lemma timers_ok_step fj qSin i s : timers_ok s -> timers_ok (step fj qSin i s).
Proof.
  intros Hok. destruct i; cbn [step].
  - apply timers_ok_processLines. exact Hok.
  - destruct (fire qSin e s) eqn:E; [exact (timers_ok_fire _ _ _ _ Hok E) | exact Hok].
  - apply timers_ok_onPowerClicked, Hok.
  - apply timers_ok_toggleOperation, Hok.
  - apply timers_ok_toggleOperation, Hok.
  - apply timers_ok_toggleOperation, Hok.
  - apply timers_ok_toggleOperation, Hok.
  - apply timers_ok_stopOperation, Hok.
Qed.

(** From start-up, whatever control-channel data, timer expiries and button
    clicks arrive, the phase timer is never armed while the 200 ms
    shot-sample timer is stopped: both start together in [startOperation],
    both stop together in [stopOperation], and the phase timer is single-shot
    and only re-armed from its own timeout. *)
Theorem phase_timer_implies_shot_timer fj qSin is conn :
  let s := run fj qSin is (initial conn) in
  phaseTimer (timers s) <> None -> shotTimer_on (timers s) = true.
Proof.
  cbv zeta.
  assert (G : forall s, timers_ok s -> timers_ok (run fj qSin is s)).
  { induction is as [| i r IH]; intros s Hok; [exact Hok |].
    cbn [run]. apply IH. apply timers_ok_step. exact Hok. }
  intros Hp.
  destruct (G (initial conn) (or_introl eq_refl)) as [H | H];
    [contradiction | exact H].
Qed.

Lemma phase_timer_implies_shot_timer_witness :
  let s := run (fun _ => None) (fun _ => 0%Q) [InEspresso; InTimer ShotTick;
             InTimer PhaseTimeout] (initial true) in
  phaseTimer (timers s) <> None /\ shotTimer_on (timers s) = true.
Proof.
  intros s. assert (H : phaseTimer (timers s) <> None) by (vm_compute; discriminate).
  split; [exact H | exact (phase_timer_implies_shot_timer _ _ _ true H)].
Defined.
